(** * doc/Geometries.ipynb: the GeoViews "Geometries" tutorial notebook

    The repository's only source file is an IPython notebook of nine code
    cells.  The notebook owns no algorithm: it sequences calls into pandas,
    HoloViews, GeoViews and cartopy.  This development has two views of it.

    - A shallow embedding of the nine code cells ([cell1] .. [cell9]) as
      actions in a state-and-exception monad.  Python's own part (the global
      namespace shared by the cells, name lookup, list subscripts,
      [enumerate], the dict comprehension, one-shot generator objects) is
      modelled concretely.  Every call into an external library is a typed
      operation [op] answered by an arbitrary [Library], which may change
      its world and may raise: what is proved holds for every behaviour of
      the libraries that meets the hypotheses stated.
    - The cells as a Python syntax tree ([Syntax.Geometries]), next to the
      text of the source ([Syntax.source]), for the statements of the
      specification about what the notebook does not contain.

    The file has the definitions first (libraries, monad, cells, a sample
    library, syntax, properties, assumptions) and the theorems after. *)

From Stdlib Require Import ZArith Ascii.
From stdpp Require Import base option list gmap strings pretty.

Local Open Scope Z_scope.

(** ** Objects owned by the external libraries *)

(** The carriers of the values the libraries hand to the notebook.  The
    notebook never looks inside any of them. *)
Record Objects : Type := {
  Geometry  : Type;   (* a shapely geometry *)
  ShpRecord : Type;   (* a cartopy.io.shapereader.Record *)
  Crs       : Type;   (* a cartopy.crs coordinate reference system *)
  Element   : Type;   (* a HoloViews/GeoViews object: Feature, Shape, Overlay, Layout, NdOverlay *)
  DataFrame : Type;   (* a pandas.DataFrame *)
  Dataset   : Type;   (* a holoviews.Dataset *)
  Reader    : Type;   (* a cartopy.io.shapereader.Reader *)
}.

(** The three attributes of [cartopy.feature] the notebook reads. *)
Inductive cfeature : Type := COASTLINE | BORDERS | LAND.

(** Python values that the notebook binds to a name, passes on or displays.
    A generator object is a reference into the store of generators. *)
Inductive pyval (O : Objects) : Type :=
| VModule   (name : string)
| VStr      (s : string)
| VGeoms    (l : list (Geometry O))
| VGeometry (g : Geometry O)
| VRecord   (r : ShpRecord O)
| VElement  (e : Element O)
| VFrame    (df : DataFrame O)
| VDataset  (ds : Dataset O)
| VReader   (r : Reader O)
| VGen      (ref : nat).

Arguments VModule {O} name.
Arguments VStr {O} s.
Arguments VGeoms {O} l.
Arguments VGeometry {O} g.
Arguments VRecord {O} r.
Arguments VElement {O} e.
Arguments VFrame {O} df.
Arguments VDataset {O} ds.
Arguments VReader {O} r.
Arguments VGen {O} ref.

(** ** Calls into the external libraries

    One constructor per library entry point the notebook calls, indexed by
    the type of the value the call returns.  Keyword arguments are the
    constructor's named arguments. *)
Inductive op (O : Objects) : Type -> Type :=
(* the import system and IPython *)
| py_import (module_ : string) (name : option string) : op O unit
| ipy_magic (cell_magic : bool) (name args : string) : op O unit
| ipy_display (v : pyval O) : op O unit
(* holoviews *)
| hv_notebook_extension : op O unit
| hv_add (a b : Element O) : op O (Element O)
| hv_mul (a b : Element O) : op O (Element O)
| hv_relabel (a : Element O) (label : string) : op O (Element O)
| hv_NdOverlay (items : gmap Z (Element O)) : op O (Element O)
| hv_Dataset (df : DataFrame O) : op O (Dataset O)
| hv_Dataset_data (ds : Dataset O) : op O (DataFrame O)
(* geoviews *)
| gv_Feature (f : cfeature) : op O (Element O)
| gv_Shape (g : Geometry O) (crs : Crs O) (group : option string) : op O (Element O)
| gv_Shape_from_shapefile (path : string) (crs : Crs O) : op O (Element O)
| gv_Shape_from_records (records : list (ShpRecord O)) (dataset : Dataset O)
    (on value : string) (index : list string) (crs : Crs O) : op O (Element O)
(* cartopy *)
| cf_geometries (f : cfeature) : op O (list (Geometry O))
| ccrs_PlateCarree : op O (Crs O)
| shapereader_Reader (path : string) : op O (Reader O)
| Reader_records (r : Reader O) : op O (list (ShpRecord O))
(* pandas *)
| pd_read_csv (path : string) : op O (DataFrame O)
| df_head (df : DataFrame O) : op O (DataFrame O).

Arguments py_import {O} module_ name.
Arguments ipy_magic {O} cell_magic name args.
Arguments ipy_display {O} v.
Arguments hv_notebook_extension {O}.
Arguments hv_add {O} a b.
Arguments hv_mul {O} a b.
Arguments hv_relabel {O} a label.
Arguments hv_NdOverlay {O} items.
Arguments hv_Dataset {O} df.
Arguments hv_Dataset_data {O} ds.
Arguments gv_Feature {O} f.
Arguments gv_Shape {O} g crs group.
Arguments gv_Shape_from_shapefile {O} path crs.
Arguments gv_Shape_from_records {O} records dataset on value index crs.
Arguments cf_geometries {O} f.
Arguments ccrs_PlateCarree {O}.
Arguments shapereader_Reader {O} path.
Arguments Reader_records {O} r.
Arguments pd_read_csv {O} path.
Arguments df_head {O} df.

(** The file a call opens, if it opens one.  The three entry points that
    take a path are the shapefile loader, the shapefile reader and the CSV
    loader; all three read. *)
Definition opens {O A} (o : op O A) : option string :=
  match o with
  | gv_Shape_from_shapefile path _ => Some path
  | shapereader_Reader path => Some path
  | pd_read_csv path => Some path
  | _ => None
  end.

(** A library: its objects, the world it runs in (the filesystem, its own
    caches and options, the notebook front end), its exceptions and its
    answer to every call, which may change the world and may raise. *)
Record Library : Type := {
  objs :> Objects;
  World : Type;
  LibExn : Type;
  FileSystem : Type;
  fs : World -> FileSystem;
  present : FileSystem -> string -> Prop;
  handle : forall A, op objs A -> World -> (LibExn + A) * World;
}.

Arguments handle l {A} o w.

(** ** The notebook's state and its monad *)

(** A call into a library, as it was answered. *)
Record event (L : Library) : Type := Event {
  ev_type : Type;
  ev_op : op L ev_type;
  ev_res : LibExn L + ev_type;
}.

Arguments Event {L ev_type} ev_op ev_res.
Arguments ev_type {L} e.
Arguments ev_op {L} e.
Arguments ev_res {L} e.

(** Python's exceptions.  [NameError], [TypeError] and [IndexError] are
    raised by the interpreter on the notebook's own expressions;
    [LibraryError] carries an exception raised inside a library call.
    [TypeError x] stands for the use of the name [x] when it is bound to a
    value of another kind than the expression needs. *)
Inductive exn (L : Library) : Type :=
| NameError (name : string)
| TypeError (name : string)
| IndexError
| LibraryError (e : LibExn L).

Arguments NameError {L} name.
Arguments TypeError {L} name.
Arguments IndexError {L}.
Arguments LibraryError {L} e.

Inductive result (L : Library) (A : Type) : Type :=
| Ok (a : A)
| Raise (e : exn L).

Arguments Ok {L A} a.
Arguments Raise {L A} e.

(** The kernel's state: the world outside, the global namespace shared by
    all cells, the store of generator objects ([Some r]: a generator of
    [r.records()] that has not run; [None]: an exhausted one), the values
    displayed so far and the calls made so far. *)
Record state (L : Library) : Type := State {
  world : World L;
  globals : gmap string (pyval L);
  gens : list (option (Reader L));
  outs : list (pyval L);
  log : list (event L);
}.

Arguments State {L} world globals gens outs log.
Arguments world {L} s.
Arguments globals {L} s.
Arguments gens {L} s.
Arguments outs {L} s.
Arguments log {L} s.

Definition M (L : Library) (A : Type) : Type := state L -> result L A * state L.

Section Runtime.
Context {L : Library}.

Definition ret {A} (a : A) : M L A := fun s => (Ok a, s).

Definition raise {A} (e : exn L) : M L A := fun s => (Raise e, s).

(** An exception ends the action: there is no handler anywhere. *)
Definition bind {A B} (m : M L A) (f : A -> M L B) : M L B :=
  fun s => match m s with
           | (Ok a, s') => f a s'
           | (Raise e, s') => (Raise e, s')
           end.

(** [x] as an expression. *)
Definition get (x : string) : M L (pyval L) :=
  fun s => match globals s !! x with
           | Some v => (Ok v, s)
           | None => (Raise (NameError x), s)
           end.

(** [x = v]. *)
Definition set (x : string) (v : pyval L) : M L unit :=
  fun s => (Ok tt, State (world s) (<[x := v]> (globals s)) (gens s) (outs s) (log s)).

(** A call into a library: the library answers in the current world, the
    call is logged with its answer, and an exception of the library is
    the call's exception. *)
Definition call {A} (o : op L A) : M L A :=
  fun s => let (r, w) := handle L o (world s) in
           let s' := State w (globals s) (gens s) (outs s) (log s ++ [Event o r]) in
           match r with
           | inr a => (Ok a, s')
           | inl e => (Raise (LibraryError e), s')
           end.

(** The value of a cell's last expression is displayed. *)
Definition display (v : pyval L) : M L unit :=
  bind (call (ipy_display v)) (fun _ s =>
    (Ok tt, State (world s) (globals s) (gens s) (outs s ++ [v]) (log s))).
End Runtime.

Declare Scope py_scope.
Delimit Scope py_scope with py.
Notation "x <- m ;; k" := (bind m (fun x => k))
  (at level 100, m at next level, right associativity) : py_scope.
Notation "m ;; k" := (bind m (fun _ => k))
  (at level 100, right associativity) : py_scope.
Local Open Scope py_scope.

Section Python.
Context {L : Library}.

(** [alias.attr] where [alias] must be bound to the module [name]. *)
Definition module_ (alias name : string) : M L unit :=
  v <- get alias ;;
  match v with
  | VModule m => if decide (m = name) then ret tt else raise (TypeError alias)
  | _ => raise (TypeError alias)
  end.

Definition get_str (x : string) : M L string :=
  v <- get x ;; match v with VStr s => ret s | _ => raise (TypeError x) end.

Definition get_geoms (x : string) : M L (list (Geometry L)) :=
  v <- get x ;; match v with VGeoms l => ret l | _ => raise (TypeError x) end.

Definition get_element (x : string) : M L (Element L) :=
  v <- get x ;; match v with VElement e => ret e | _ => raise (TypeError x) end.

Definition get_frame (x : string) : M L (DataFrame L) :=
  v <- get x ;; match v with VFrame d => ret d | _ => raise (TypeError x) end.

Definition get_dataset (x : string) : M L (Dataset L) :=
  v <- get x ;; match v with VDataset d => ret d | _ => raise (TypeError x) end.

Definition get_reader (x : string) : M L (Reader L) :=
  v <- get x ;; match v with VReader r => ret r | _ => raise (TypeError x) end.

(** [import module as alias] and [from package import name as alias]. *)
Definition import_as (module_name alias : string) : M L unit :=
  call (py_import module_name None) ;; set alias (VModule module_name).

Definition from_import_as (package name alias : string) : M L unit :=
  call (py_import package (Some name)) ;;
  set alias (VModule (package +:+ "." +:+ name)).

(** [l[i]] on a Python list: indices from [-len(l)] to [len(l) - 1] are
    in bounds, negative ones count from the end, any other raises
    IndexError. *)
Definition subscript {A} (l : list A) (i : Z) : M L A :=
  let n := Z.of_nat (length l) in
  let j := if decide (i < 0) then n + i else i in
  if decide (0 <= j < n)
  then match l !! Z.to_nat j with
       | Some x => ret x
       | None => raise IndexError
       end
  else raise IndexError.

(** [enumerate(l)]: the items of [l] paired with their positions from 0. *)
Definition enumerate {A} (l : list A) : list (Z * A) :=
  imap (fun i x => (Z.of_nat i, x)) l.

(** [{key: value for item in items}]: the items are visited in order and
    each key is assigned its value, a later assignment to an equal key
    replacing the earlier one. *)
Fixpoint dict_comprehension {A V} (body : A -> M L (Z * V)) (items : list A)
    (d : gmap Z V) : M L (gmap Z V) :=
  match items with
  | [] => ret d
  | x :: rest =>
      kv <- body x ;;
      dict_comprehension body rest (<[kv.1 := kv.2]> d)
  end.

(** [r.records()].  cartopy's reader is no part of this repository; the
    specification has it as "a shapefile reader capable of yielding
    geometry+attribute records", and [records] is taken to be a generator
    method in Python's sense: a call creates a new generator object and
    runs none of its body. *)
Definition records (r : Reader L) : M L nat :=
  fun s => (Ok (length (gens s)),
            State (world s) (globals s) (gens s ++ [Some r]) (outs s) (log s)).

(** Iterating a generator of [r.records()] to its end, as [list(g)] and
    [from_records] do: a generator that has not run reads the records of
    its reader and is exhausted afterwards; an exhausted generator yields
    nothing. *)
Definition drain (g : nat) : M L (list (ShpRecord L)) :=
  fun s => match gens s !! g with
           | Some (Some r) =>
               call (Reader_records r)
                 (State (world s) (globals s) (<[g := None]> (gens s)) (outs s) (log s))
           | _ => (Ok [], s)
           end.

(** What a handler that passes would do to an action, as in
    [try: m / except: pass]: the exception is dropped.  No cell does
    this. *)
Definition swallow (m : M L unit) : M L unit :=
  fun s => (Ok tt, (m s).2).

(** Iterating one generator twice, as in
    [g = r.records(); a = list(g); b = list(g)].  No cell does this. *)
Definition drain_twice (r : Reader L) : M L (list (ShpRecord L) * list (ShpRecord L)) :=
  g <- records r ;; a <- drain g ;; b <- drain g ;; ret (a, b).
End Python.

(** ** The nine code cells of doc/Geometries.ipynb

    Each cell is the sequence of its statements; each statement evaluates
    its sub-expressions in Python's order (the callee, then the positional
    arguments, then the keyword arguments, left to right). *)
Section Cells.
Context {L : Library}.

(** <<
    import pandas as pd
    import numpy as np
    import holoviews as hv
    import geoviews as gv
    import cartopy
    from cartopy import crs as ccrs
    from cartopy import feature as cf
    hv.notebook_extension()
    %output dpi=120
    >> *)
Definition cell1 : M L unit :=
  import_as "pandas" "pd" ;;
  import_as "numpy" "np" ;;
  import_as "holoviews" "hv" ;;
  import_as "geoviews" "gv" ;;
  import_as "cartopy" "cartopy" ;;
  from_import_as "cartopy" "crs" "ccrs" ;;
  from_import_as "cartopy" "feature" "cf" ;;
  (module_ "hv" "holoviews" ;; call hv_notebook_extension) ;;
  call (ipy_magic false "output" "dpi=120").

(** <<
    %opts Overlay [show_grid=False] Layout [hspace=0.2 sublabel_position=(-.15, .7)]
    coasts  = gv.Feature(cf.COASTLINE)
    borders = gv.Feature(cf.BORDERS)
    land   = gv.Feature(cf.LAND)

    land + borders + (land*borders).relabel("Overlay")
    >> *)
Definition cell2 : M L unit :=
  call (ipy_magic false "opts"
    "Overlay [show_grid=False] Layout [hspace=0.2 sublabel_position=(-.15, .7)]") ;;
  (module_ "gv" "geoviews" ;; module_ "cf" "cartopy.feature" ;;
   e <- call (gv_Feature COASTLINE) ;; set "coasts" (VElement e)) ;;
  (module_ "gv" "geoviews" ;; module_ "cf" "cartopy.feature" ;;
   e <- call (gv_Feature BORDERS) ;; set "borders" (VElement e)) ;;
  (module_ "gv" "geoviews" ;; module_ "cf" "cartopy.feature" ;;
   e <- call (gv_Feature LAND) ;; set "land" (VElement e)) ;;
  (a <- get_element "land" ;; b <- get_element "borders" ;;
   ab <- call (hv_add a b) ;;
   c <- get_element "land" ;; d <- get_element "borders" ;;
   cd <- call (hv_mul c d) ;;
   r <- call (hv_relabel cd "Overlay") ;;
   v <- call (hv_add ab r) ;;
   display (VElement v)).

(** <<
    land_geoms = list(cf.LAND.geometries())
    land_geoms[21]
    >>
    [cf_geometries LAND] answers with the items that the iterator
    [cf.LAND.geometries()] yields to [list]. *)
Definition cell3 : M L unit :=
  (module_ "cf" "cartopy.feature" ;;
   l <- call (cf_geometries LAND) ;; set "land_geoms" (VGeoms l)) ;;
  (l <- get_geoms "land_geoms" ;; g <- subscript l 21 ;;
   display (VGeometry g)).

(** <<
    gv.Shape(land_geoms[21], crs=ccrs.PlateCarree(), group='Australia')
    >> *)
Definition cell4 : M L unit :=
  module_ "gv" "geoviews" ;;
  l <- get_geoms "land_geoms" ;; g <- subscript l 21 ;;
  module_ "ccrs" "cartopy.crs" ;; crs <- call ccrs_PlateCarree ;;
  e <- call (gv_Shape g crs (Some "Australia")) ;;
  display (VElement e).

(** The body of the comprehension of the fifth cell, for the item
    [(i, s)]: the key is [i], the value [gv.Shape(s, crs=ccrs.PlateCarree())]. *)
Definition shape_item (item : Z * Geometry L) : M L (Z * Element L) :=
  module_ "gv" "geoviews" ;;
  module_ "ccrs" "cartopy.crs" ;; crs <- call ccrs_PlateCarree ;;
  e <- call (gv_Shape item.2 crs None) ;;
  ret (item.1, e).

(** <<
    %%opts NdOverlay [aspect=2]
    hv.NdOverlay({i: gv.Shape(s, crs=ccrs.PlateCarree()) for i, s in enumerate(land_geoms)})
    >> *)
Definition cell5 : M L unit :=
  call (ipy_magic true "opts" "NdOverlay [aspect=2]") ;;
  module_ "hv" "holoviews" ;;
  l <- get_geoms "land_geoms" ;;
  d <- dict_comprehension shape_item (enumerate l) ∅ ;;
  e <- call (hv_NdOverlay d) ;;
  display (VElement e).

(** <<
    shapefile = './assets/boundaries/boundaries.shp'
    gv.Shape.from_shapefile(shapefile, crs=ccrs.PlateCarree())
    >> *)
Definition cell6 : M L unit :=
  set "shapefile" (VStr "./assets/boundaries/boundaries.shp") ;;
  (module_ "gv" "geoviews" ;;
   p <- get_str "shapefile" ;;
   module_ "ccrs" "cartopy.crs" ;; crs <- call ccrs_PlateCarree ;;
   e <- call (gv_Shape_from_shapefile p crs) ;;
   display (VElement e)).

(** The first statement of the seventh cell:
    <<
    shapes = cartopy.io.shapereader.Reader(shapefile)
    >> *)
Definition cell7_bind : M L unit :=
  module_ "cartopy" "cartopy" ;;
  p <- get_str "shapefile" ;;
  r <- call (shapereader_Reader p) ;;
  set "shapes" (VReader r).

(** Its second statement, the inspection of the first record:
    <<
    list(shapes.records())[0]
    >> *)
Definition cell7_inspect : M L unit :=
  r <- get_reader "shapes" ;; g <- records r ;;
  l <- drain g ;;
  x <- subscript l 0 ;;
  display (VRecord x).

Definition cell7 : M L unit := cell7_bind ;; cell7_inspect.

(** <<
    referendum = pd.read_csv('./assets/referendum.csv')
    referendum = hv.Dataset(referendum)
    referendum.data.head()
    >> *)
Definition cell8 : M L unit :=
  (module_ "pd" "pandas" ;;
   df <- call (pd_read_csv "./assets/referendum.csv") ;;
   set "referendum" (VFrame df)) ;;
  (module_ "hv" "holoviews" ;;
   df <- get_frame "referendum" ;;
   ds <- call (hv_Dataset df) ;;
   set "referendum" (VDataset ds)) ;;
  (ds <- get_dataset "referendum" ;;
   df <- call (hv_Dataset_data ds) ;;
   h <- call (df_head df) ;;
   display (VFrame h)).

(** <<
    %%opts Shape (cmap='viridis')
    gv.Shape.from_records(shapes.records(), referendum, on='code', value='leaveVoteshare',
                         index=['name', 'regionName'], crs=ccrs.PlateCarree())
    >>
    [from_records] iterates the generator it is given. *)
Definition cell9 : M L unit :=
  call (ipy_magic true "opts" "Shape (cmap='viridis')") ;;
  module_ "gv" "geoviews" ;;
  r <- get_reader "shapes" ;; g <- records r ;;
  ds <- get_dataset "referendum" ;;
  module_ "ccrs" "cartopy.crs" ;; crs <- call ccrs_PlateCarree ;;
  recs <- drain g ;;
  e <- call (gv_Shape_from_records recs ds "code" "leaveVoteshare"
               ["name"; "regionName"] crs) ;;
  display (VElement e).

(** Evaluating cells one after the other; the first exception stops the
    evaluation. *)
Fixpoint run (cells : list (M L unit)) : M L unit :=
  match cells with
  | [] => ret tt
  | c :: rest => c ;; run rest
  end.

Definition notebook : list (M L unit) :=
  [cell1; cell2; cell3; cell4; cell5; cell6; cell7; cell8; cell9].

(** A fresh kernel in the world [w]. *)
Definition fresh (w : World L) : state L := State w ∅ [] [] [].
End Cells.

(** The two asset files the notebook names. *)
Definition boundaries_shp : string := "./assets/boundaries/boundaries.shp".
Definition referendum_csv : string := "./assets/referendum.csv".

(** ** A small concrete library

    A library over natural numbers, to run the notebook on concrete worlds.
    Geometries and records are numbers; a file's content is the list of the
    records it holds; an element is the term of the calls that built it.
    The only failure is a missing file. *)
Module Sample.

#[local] Set Warnings "-register-all".

Inductive element : Type :=
| Feature (f : cfeature)
| Shape (g : nat) (group : option string)
| Layout (a b : element)
| Overlay (a b : element)
| Relabel (a : element) (label : string)
| NdOverlay (items : list (Z * element))
| Choropleth (records dataset : list nat) (on value : string) (index : list string).

Definition objects : Objects := {|
  Geometry := nat; ShpRecord := nat; Crs := unit; Element := element;
  DataFrame := list nat; Dataset := list nat; Reader := list nat |}.

Record world : Type := MkWorld {
  files : gmap string (list nat);
  natural_earth : cfeature -> list nat;
}.

Inductive error : Type := IOError (path : string).

Definition read (w : world) (path : string) : error + list nat :=
  match files w !! path with
  | Some content => inr content
  | None => inl (IOError path)
  end.

Definition answer (A : Type) (o : op objects A) (w : world) : error + A :=
  match o in op _ A return error + A with
  | py_import _ _ => inr tt
  | ipy_magic _ _ _ => inr tt
  | ipy_display _ => inr tt
  | hv_notebook_extension => inr tt
  | hv_add a b => inr (Layout a b)
  | hv_mul a b => inr (Overlay a b)
  | hv_relabel a label => inr (Relabel a label)
  | hv_NdOverlay items => inr (NdOverlay (map_to_list items))
  | hv_Dataset df => inr df
  | hv_Dataset_data ds => inr ds
  | gv_Feature f => inr (Feature f)
  | gv_Shape g _ group => inr (Shape g group)
  | gv_Shape_from_shapefile path _ =>
      match read w path with
      | inr content => inr (NdOverlay (imap (fun i g => (Z.of_nat i, Shape g None)) content))
      | inl e => inl e
      end
  | gv_Shape_from_records records dataset on value index _ =>
      inr (Choropleth records dataset on value index)
  | cf_geometries f => inr (natural_earth w f)
  | ccrs_PlateCarree => inr tt
  | shapereader_Reader path => read w path
  | Reader_records r => inr r
  | pd_read_csv path => read w path
  | df_head df => inr (take 5 df)
  end.

Definition library : Library := {|
  objs := objects;
  World := world;
  LibExn := error;
  FileSystem := gmap string (list nat);
  fs := files;
  present := fun f path => is_Some (f !! path);
  handle := fun A o w => (answer A o w, w);
|}.

(** A world with both assets, [n] land geometries and the given records
    in the shapefile. *)
Definition assets (n : nat) (shp csv : list nat) : world :=
  MkWorld (<[boundaries_shp := shp]> (<[referendum_csv := csv]> ∅))
        (fun f => match f with LAND => seq 0 n | _ => [] end).

(** Two worlds: one in which the shapefile holds two records, one in
    which it holds none. *)
Definition complete : world := assets 22 [7; 8]%nat [7; 8]%nat.
Definition no_record : world := assets 22 [] [7; 8]%nat.

(** The evaluation of cells by a fresh kernel. *)
Notation evaluate cells w := (@run library cells (@fresh library w)).

(** Three states of the kernel in the world [complete]: after the
    imports and the binding of [shapefile]; after the third cell too;
    after the binding of [shapes] too. *)
Definition imported : state library := (evaluate [cell1; cell6] complete).2.
Definition with_land : state library := (evaluate [cell1; cell3; cell6] complete).2.


End Sample.

(** ** The notebook as text and as a syntax tree *)
Module Syntax.

#[local] Set Warnings "-register-all".

Inductive operator : Type := Add | Sub | Mult | Div | Mod | Pow.

(** Python expressions, after the node names of Python's [ast] module.
    A comprehension has one [for] clause with its [if] filters. *)
Inductive expr : Type :=
| Name (id : string)
| Num (n : Z)
| Str (s : string)
| Attribute (value : expr) (attr : string)
| Call (func : expr) (args : list expr) (keywords : list (string * expr))
| Subscript (value index : expr)
| BinOp (left : expr) (op : operator) (right : expr)
| BoolOp (is_and : bool) (left right : expr)
| Compare (left : expr) (op : string) (right : expr)
| List_ (elts : list expr)
| Tuple (elts : list expr)
| Dict (keys values : list expr)
| ListComp (elt target iter : expr) (ifs : list expr)
| DictComp (key value target iter : expr) (ifs : list expr)
| GeneratorExp (elt target iter : expr) (ifs : list expr)
| Lambda (args : list string) (body : expr)
| IfExp (test body orelse : expr)
| Yield (value : option expr)
| Await (value : expr).

(** Python statements, and IPython's line ([%name]) and cell ([%%name])
    magics. *)
Inductive stmt : Type :=
| Import (name : string) (asname : option string)
| ImportFrom (module_ name : string) (asname : option string)
| Assign (target value : expr)
| AugAssign (target : expr) (op : operator) (value : expr)
| Expr (value : expr)
| LineMagic (name args : string)
| CellMagic (name args : string)
| FunctionDef (is_async : bool) (name : string) (args : list string) (body : list stmt)
| ClassDef (name : string) (bases : list expr) (body : list stmt)
| Return (value : option expr)
| Delete (target : expr)
| Global_ (names : list string)
| Print_ (values : list expr)
| Assert (test : expr)
| Pass
| Break
| Continue
| If (test : expr) (body orelse : list stmt)
| For (target iter : expr) (body orelse : list stmt)
| While (test : expr) (body orelse : list stmt)
| With (context : expr) (body : list stmt)
| Raise (exc : option expr)
| Try (body handlers orelse finalbody : list stmt)
| ExceptHandler (type : option expr) (body : list stmt).

Inductive cell : Type :=
| Markdown
| Code (body : list stmt).

Definition PlateCarree : expr := Call (Attribute (Name "ccrs") "PlateCarree") [] [].

(** The twenty cells of doc/Geometries.ipynb, in order. *)
Definition Geometries : list cell := [
  Code [
    Import "pandas" (Some "pd");
    Import "numpy" (Some "np");
    Import "holoviews" (Some "hv");
    Import "geoviews" (Some "gv");
    Import "cartopy" None;
    ImportFrom "cartopy" "crs" (Some "ccrs");
    ImportFrom "cartopy" "feature" (Some "cf");
    Expr (Call (Attribute (Name "hv") "notebook_extension") [] []);
    LineMagic "output" "dpi=120" ];
  Markdown; Markdown; Markdown;
  Code [
    LineMagic "opts"
      "Overlay [show_grid=False] Layout [hspace=0.2 sublabel_position=(-.15, .7)]";
    Assign (Name "coasts")
      (Call (Attribute (Name "gv") "Feature") [Attribute (Name "cf") "COASTLINE"] []);
    Assign (Name "borders")
      (Call (Attribute (Name "gv") "Feature") [Attribute (Name "cf") "BORDERS"] []);
    Assign (Name "land")
      (Call (Attribute (Name "gv") "Feature") [Attribute (Name "cf") "LAND"] []);
    Expr (BinOp (BinOp (Name "land") Add (Name "borders")) Add
            (Call (Attribute (BinOp (Name "land") Mult (Name "borders")) "relabel")
               [Str "Overlay"] [])) ];
  Markdown; Markdown;
  Code [
    Assign (Name "land_geoms")
      (Call (Name "list")
         [Call (Attribute (Attribute (Name "cf") "LAND") "geometries") [] []] []);
    Expr (Subscript (Name "land_geoms") (Num 21)) ];
  Markdown;
  Code [
    Expr (Call (Attribute (Name "gv") "Shape")
            [Subscript (Name "land_geoms") (Num 21)]
            [("crs", PlateCarree); ("group", Str "Australia")]) ];
  Markdown;
  Code [
    CellMagic "opts" "NdOverlay [aspect=2]";
    Expr (Call (Attribute (Name "hv") "NdOverlay")
            [DictComp (Name "i")
               (Call (Attribute (Name "gv") "Shape") [Name "s"] [("crs", PlateCarree)])
               (Tuple [Name "i"; Name "s"])
               (Call (Name "enumerate") [Name "land_geoms"] [])
               []] []) ];
  Markdown;
  Code [
    Assign (Name "shapefile") (Str "./assets/boundaries/boundaries.shp");
    Expr (Call (Attribute (Attribute (Name "gv") "Shape") "from_shapefile")
            [Name "shapefile"] [("crs", PlateCarree)]) ];
  Markdown;
  Code [
    Assign (Name "shapes")
      (Call (Attribute (Attribute (Attribute (Name "cartopy") "io") "shapereader") "Reader")
         [Name "shapefile"] []);
    Expr (Subscript
            (Call (Name "list")
               [Call (Attribute (Name "shapes") "records") [] []] [])
            (Num 0)) ];
  Markdown;
  Code [
    Assign (Name "referendum")
      (Call (Attribute (Name "pd") "read_csv") [Str "./assets/referendum.csv"] []);
    Assign (Name "referendum")
      (Call (Attribute (Name "hv") "Dataset") [Name "referendum"] []);
    Expr (Call (Attribute (Attribute (Name "referendum") "data") "head") [] []) ];
  Markdown;
  Code [
    CellMagic "opts" "Shape (cmap='viridis')";
    Expr (Call (Attribute (Attribute (Name "gv") "Shape") "from_records")
            [Call (Attribute (Name "shapes") "records") [] []; Name "referendum"]
            [("on", Str "code"); ("value", Str "leaveVoteshare");
             ("index", List_ [Str "name"; Str "regionName"]);
             ("crs", PlateCarree)]) ]
].

(** The character [34], Python's other string delimiter. *)
Definition dquote : string := String (Ascii.ascii_of_nat 34) EmptyString.

(** The source lines of the nine code cells, as they are in the file. *)
Definition source : list (list string) := [
  [ "import pandas as pd";
    "import numpy as np";
    "import holoviews as hv";
    "import geoviews as gv";
    "import cartopy";
    "from cartopy import crs as ccrs";
    "from cartopy import feature as cf";
    "hv.notebook_extension()";
    "%output dpi=120" ];
  [ "%opts Overlay [show_grid=False] Layout [hspace=0.2 sublabel_position=(-.15, .7)]";
    "coasts  = gv.Feature(cf.COASTLINE)";
    "borders = gv.Feature(cf.BORDERS)";
    "land   = gv.Feature(cf.LAND)";
    EmptyString;
    "land + borders + (land*borders).relabel(" +:+ dquote +:+ "Overlay" +:+ dquote +:+ ")" ];
  [ "land_geoms = list(cf.LAND.geometries())";
    "land_geoms[21]" ];
  [ "gv.Shape(land_geoms[21], crs=ccrs.PlateCarree(), group='Australia')" ];
  [ "%%opts NdOverlay [aspect=2]";
    "hv.NdOverlay({i: gv.Shape(s, crs=ccrs.PlateCarree()) for i, s in enumerate(land_geoms)})" ];
  [ "shapefile = './assets/boundaries/boundaries.shp'";
    "gv.Shape.from_shapefile(shapefile, crs=ccrs.PlateCarree())" ];
  [ "shapes = cartopy.io.shapereader.Reader(shapefile)";
    "list(shapes.records())[0]" ];
  [ "referendum = pd.read_csv('./assets/referendum.csv')";
    "referendum = hv.Dataset(referendum)";
    "referendum.data.head()" ];
  [ "%%opts Shape (cmap='viridis')";
    "gv.Shape.from_records(shapes.records(), referendum, on='code', value='leaveVoteshare',";
    "                     index=['name', 'regionName'], crs=ccrs.PlateCarree())" ]
].

Definition code_cells (nb : list cell) : list (list stmt) :=
  omap (fun c => match c with Code body => Some body | Markdown => None end) nb.

(** *** Printing the tree back *)

Definition symbol (o : operator) : string :=
  match o with
  | Add => "+" | Sub => "-" | Mult => "*" | Div => "/" | Mod => "%" | Pow => "**"
  end.

Definition commas (l : list string) : string := String.concat ", " l.

Definition for_clause (target iter : string) (ifs : list string) : string :=
  " for " +:+ target +:+ " in " +:+ iter +:+
  String.concat EmptyString (map (fun c => " if " +:+ c) ifs).

Fixpoint unparse (e : expr) : string :=
  match e with
  | Name id => id
  | Num n => pretty n
  | Str s => "'" +:+ s +:+ "'"
  | Attribute v a =>
      match v with
      | BinOp _ _ _ => "(" +:+ unparse v +:+ ")"
      | _ => unparse v
      end +:+ "." +:+ a
  | Call f args kws =>
      unparse f +:+ "(" +:+
      commas (map unparse args ++ map (fun kw => kw.1 +:+ "=" +:+ unparse kw.2) kws)
      +:+ ")"
  | Subscript v i => unparse v +:+ "[" +:+ unparse i +:+ "]"
  | BinOp l o r => unparse l +:+ " " +:+ symbol o +:+ " " +:+ unparse r
  | BoolOp is_and l r =>
      unparse l +:+ (if is_and then " and " else " or ") +:+ unparse r
  | Compare l o r => unparse l +:+ " " +:+ o +:+ " " +:+ unparse r
  | List_ es => "[" +:+ commas (map unparse es) +:+ "]"
  | Tuple es => commas (map unparse es)
  | Dict ks vs =>
      "{" +:+ commas (zip_with (fun k v => k +:+ ": " +:+ v) (map unparse ks) (map unparse vs))
      +:+ "}"
  | ListComp x t i ifs =>
      "[" +:+ unparse x +:+ for_clause (unparse t) (unparse i) (map unparse ifs) +:+ "]"
  | DictComp k v t i ifs =>
      "{" +:+ unparse k +:+ ": " +:+ unparse v +:+
      for_clause (unparse t) (unparse i) (map unparse ifs) +:+ "}"
  | GeneratorExp x t i ifs =>
      "(" +:+ unparse x +:+ for_clause (unparse t) (unparse i) (map unparse ifs) +:+ ")"
  | Lambda xs b => "lambda " +:+ commas xs +:+ ": " +:+ unparse b
  | IfExp c a b => unparse a +:+ " if " +:+ unparse c +:+ " else " +:+ unparse b
  | Yield v => "yield " +:+ from_option unparse EmptyString v
  | Await v => "await " +:+ unparse v
  end.

(** The first line of a statement; the cells of this notebook have no
    statement with a body. *)
Definition unparse_stmt (s : stmt) : string :=
  match s with
  | Import m a =>
      "import " +:+ m +:+ from_option (fun a => " as " +:+ a) EmptyString a
  | ImportFrom m n a =>
      "from " +:+ m +:+ " import " +:+ n +:+ from_option (fun a => " as " +:+ a) EmptyString a
  | Assign t v => unparse t +:+ " = " +:+ unparse v
  | AugAssign t o v => unparse t +:+ " " +:+ symbol o +:+ "= " +:+ unparse v
  | Expr v => unparse v
  | LineMagic n a => "%" +:+ n +:+ " " +:+ a
  | CellMagic n a => "%%" +:+ n +:+ " " +:+ a
  | FunctionDef is_async n xs _ =>
      (if is_async then "async def " else "def ") +:+ n +:+ "(" +:+ commas xs +:+ "):"
  | ClassDef n bs _ => "class " +:+ n +:+ "(" +:+ commas (map unparse bs) +:+ "):"
  | Return v => "return " +:+ from_option unparse EmptyString v
  | Delete t => "del " +:+ unparse t
  | Global_ xs => "global " +:+ commas xs
  | Print_ vs => "print " +:+ commas (map unparse vs)
  | Assert t => "assert " +:+ unparse t
  | Pass => "pass"
  | Break => "break"
  | Continue => "continue"
  | If t _ _ => "if " +:+ unparse t +:+ ":"
  | For t i _ _ => "for " +:+ unparse t +:+ " in " +:+ unparse i +:+ ":"
  | While t _ _ => "while " +:+ unparse t +:+ ":"
  | With c _ => "with " +:+ unparse c +:+ ":"
  | Raise v => "raise " +:+ from_option unparse EmptyString v
  | Try _ _ _ _ => "try:"
  | ExceptHandler t _ => "except " +:+ from_option unparse EmptyString t +:+ ":"
  end.

(** Text up to layout and the choice of string delimiter: blanks are
    dropped and the character [34] is read as the quote. *)
Fixpoint canon (s : string) : string :=
  match s with
  | EmptyString => EmptyString
  | String c rest =>
      if decide (c = " "%char) then canon rest
      else if decide (c = Ascii.ascii_of_nat 34) then String "'"%char (canon rest)
      else String c (canon rest)
  end.

Definition canon_lines (lines : list string) : string :=
  canon (String.concat EmptyString lines).

(** *** Walking the tree *)

Fixpoint subexprs (e : expr) : list expr :=
  e :: match e with
       | Name _ | Num _ | Str _ => []
       | Attribute v _ => subexprs v
       | Call f args kws =>
           subexprs f ++ flat_map subexprs args ++ flat_map (fun kw => subexprs kw.2) kws
       | Subscript v i => subexprs v ++ subexprs i
       | BinOp l _ r => subexprs l ++ subexprs r
       | BoolOp _ l r => subexprs l ++ subexprs r
       | Compare l _ r => subexprs l ++ subexprs r
       | List_ es | Tuple es => flat_map subexprs es
       | Dict ks vs => flat_map subexprs ks ++ flat_map subexprs vs
       | ListComp x t i ifs | GeneratorExp x t i ifs =>
           subexprs x ++ subexprs t ++ subexprs i ++ flat_map subexprs ifs
       | DictComp k v t i ifs =>
           subexprs k ++ subexprs v ++ subexprs t ++ subexprs i ++ flat_map subexprs ifs
       | Lambda _ b => subexprs b
       | IfExp c a b => subexprs c ++ subexprs a ++ subexprs b
       | Yield v => from_option subexprs [] v
       | Await v => subexprs v
       end.

Fixpoint substmts (s : stmt) : list stmt :=
  s :: match s with
       | FunctionDef _ _ _ body | ClassDef _ _ body | With _ body
       | ExceptHandler _ body => flat_map substmts body
       | If _ body orelse | For _ _ body orelse | While _ body orelse =>
           flat_map substmts body ++ flat_map substmts orelse
       | Try body handlers orelse finalbody =>
           flat_map substmts body ++ flat_map substmts handlers ++
           flat_map substmts orelse ++ flat_map substmts finalbody
       | _ => []
       end.

(** The expressions a statement holds itself (not those of the
    statements nested in it). *)
Definition own_exprs (s : stmt) : list expr :=
  match s with
  | Assign t v | AugAssign t _ v => [t; v]
  | Expr v | Delete v | Assert v => [v]
  | ClassDef _ bs _ => bs
  | Print_ vs => vs
  | Return v | Raise v | ExceptHandler v _ => from_option (fun e => [e]) [] v
  | If t _ _ | While t _ _ | With t _ => [t]
  | For t i _ _ => [t; i]
  | _ => []
  end.

Definition statements (nb : list cell) : list stmt :=
  flat_map substmts (concat (code_cells nb)).

Definition expressions (nb : list cell) : list expr :=
  flat_map subexprs (flat_map own_exprs (statements nb)).

(** *** What a notebook contains *)

(** The name an expression starts from: [gv] in [gv.Shape.from_records],
    [land] in [(land*borders).relabel]. *)
Fixpoint root (e : expr) : option string :=
  match e with
  | Name id => Some id
  | Attribute v _ | Subscript v _ | Call v _ _ | BinOp v _ _ => root v
  | _ => None
  end.

(** The callee of every call, printed. *)
Definition callees (nb : list cell) : list string :=
  omap (fun e => match e with Call f _ _ => Some (unparse f) | _ => None end)
       (expressions nb).

(** The names the import statements bind, and the modules they load. *)
Definition imported (nb : list cell) : list string :=
  omap (fun s => match s with
                 | Import m a => Some (default m a)
                 | ImportFrom _ n a => Some (default n a)
                 | _ => None
                 end) (statements nb).

Definition modules (nb : list cell) : list string :=
  omap (fun s => match s with
                 | Import m _ => Some m
                 | ImportFrom m n _ => Some (m +:+ "." +:+ n)
                 | _ => None
                 end) (statements nb).

Definition rooted_in (names : list string) (e : expr) : bool :=
  match root e with
  | Some x => bool_decide (x ∈ names)
  | None => false
  end.

(** The names assigned the result of a call into an imported library. *)
Definition library_values (nb : list cell) : list string :=
  omap (fun s => match s with
                 | Assign (Name x) (Call f _ _) =>
                     if rooted_in (imported nb) f then Some x else None
                 | _ => None
                 end) (statements nb).

(** Python's built-in functions that the notebook applies. *)
Definition builtins : list string := ["list"; "enumerate"].

(** A call into an external library: its callee starts from an imported
    name or from a value a library call returned. *)
Definition library_call (nb : list cell) (e : expr) : bool :=
  match e with
  | Call f _ _ => rooted_in (imported nb ++ library_values nb) f
  | _ => true
  end.

(** A call of a built-in on a single argument and no keyword. *)
Definition builtin_call (e : expr) : bool :=
  match e with
  | Call (Name f) [_] [] => bool_decide (f ∈ builtins)
  | _ => false
  end.

(** The string literals, and those that are paths. *)
Definition literals (nb : list cell) : list string :=
  omap (fun e => match e with Str s => Some s | _ => None end) (expressions nb).

Fixpoint has_slash (s : string) : bool :=
  match s with
  | EmptyString => false
  | String c rest => bool_decide (c = "/"%char) || has_slash rest
  end.

Definition paths (nb : list cell) : list string := filter (fun s => has_slash s) (literals nb).

(** The value of the keyword [k] in every call of the callee [f]. *)
Definition keyword_of (nb : list cell) (f k : string) : list expr :=
  flat_map (fun e => match e with
                     | Call g _ kws =>
                         if decide (unparse g = f)
                         then omap (fun kw => if decide (kw.1 = k) then Some kw.2 else None) kws
                         else []
                     | _ => []
                     end) (expressions nb).

(** Definitions of the notebook's own: functions, classes, lambdas. *)
Definition defines (s : stmt) : bool :=
  match s with FunctionDef _ _ _ _ | ClassDef _ _ _ => true | _ => false end.

Definition is_lambda (e : expr) : bool :=
  match e with Lambda _ _ => true | _ => false end.

(** Statements that branch, loop, leave or handle. *)
Definition control_flow (s : stmt) : bool :=
  match s with
  | If _ _ _ | For _ _ _ _ | While _ _ _ | With _ _ | Try _ _ _ _ | ExceptHandler _ _
  | Raise _ | Return _ | Break | Continue | Assert _ => true
  | _ => false
  end.

(** Expressions that choose: a conditional expression, a short-circuit
    operator, a comprehension with a filter. *)
Definition chooses (e : expr) : bool :=
  match e with
  | IfExp _ _ _ | BoolOp _ _ _ => true
  | ListComp _ _ _ (_ :: _) | DictComp _ _ _ _ (_ :: _) | GeneratorExp _ _ _ (_ :: _) => true
  | _ => false
  end.

(** Handling of exceptions: [try], [except], [finally], [with], [raise]. *)
Definition handles (s : stmt) : bool :=
  match s with
  | Try _ _ _ _ | ExceptHandler _ _ | With _ _ | Raise _ => true
  | _ => false
  end.




(** The magics of this notebook set display options; any other magic
    could run code. *)
Definition display_magics : list string := ["output"; "opts"].

Definition magic_ok (s : stmt) : bool :=
  match s with
  | LineMagic n _ | CellMagic n _ => bool_decide (n ∈ display_magics)
  | _ => true
  end.

(** Modules of Python's standard library and third parties that start
    threads, processes or event loops. *)
Definition concurrency_modules : list string :=
  ["thread"; "threading"; "multiprocessing"; "concurrent"; "asyncio"; "subprocess";
   "signal"; "sched"; "select"; "Queue"; "queue"; "gevent"; "twisted"; "tornado";
   "joblib"; "dask"; "ipyparallel"].

(** The package of a dotted module name. *)
Fixpoint package (m : string) : string :=
  match m with
  | EmptyString => EmptyString
  | String c rest => if decide (c = "."%char) then EmptyString else String c (package rest)
  end.

(** Suspension: generators, coroutines. *)
Definition suspends_stmt (s : stmt) : bool :=
  match s with FunctionDef true _ _ _ => true | _ => false end.

Definition suspends (e : expr) : bool :=
  match e with Yield _ | Await _ | GeneratorExp _ _ _ _ => true | _ => false end.

(** The operations the specification lists, and the callees that
    perform them in the notebook. *)
Inductive operation : Type :=
| geometry_iteration | shapefile_reading | crs_projection
| merging_records | choropleth_rendering.

Definition performed_by (o : operation) : list string :=
  match o with
  | geometry_iteration => ["cf.LAND.geometries"]
  | shapefile_reading => ["gv.Shape.from_shapefile"; "cartopy.io.shapereader.Reader"]
  | crs_projection => ["ccrs.PlateCarree"]
  | merging_records => ["gv.Shape.from_records"]
  | choropleth_rendering => ["gv.Shape.from_records"]
  end.

Definition operations : list operation :=
  [geometry_iteration; shapefile_reading; crs_projection; merging_records;
   choropleth_rendering].

(** *** Two cells that are not in the notebook

    A cell that guards the CSV load with a handler and falls back to an
    empty list, and a cell that starts a thread: what the notebook would
    look like if it handled errors or introduced concurrency. *)
Definition guarded : list cell := [
  Code [
    Import "pandas" (Some "pd");
    Try [Assign (Name "referendum")
           (Call (Attribute (Name "pd") "read_csv") [Str "./assets/referendum.csv"] [])]
        [ExceptHandler (Some (Name "IOError")) [Assign (Name "referendum") (List_ [])]]
        [] [] ] ].

Definition threaded : list cell := [
  Code [
    Import "threading" None;
    FunctionDef false "work" [] [Pass];
    Expr (Call (Attribute
                  (Call (Attribute (Name "threading") "Thread") []
                     [("target", Name "work")])
                  "start") [] []) ] ].

End Syntax.

(** ** Properties of an evaluation *)
Section Properties.
Context {L : Library}.

(** A call that returned, and a call logged with the answer the library
    gave it in some world. *)
Definition normal (ev : event L) : Prop := exists a, ev_res ev = inr a.

Definition genuine (ev : event L) : Prop :=
  exists w, ev_res ev = (handle L (ev_op ev) w).1.

(** The calls [new] made by an action with the result [r]: every call
    returned, except that an action ending in a library's exception made
    one more call, the last, and that call raised this very exception. *)
Definition faithful {A} (r : result L A) (new : list (event L)) : Prop :=
  match r with
  | Raise (LibraryError e) =>
      exists pre ev, new = pre ++ [ev] /\ Forall normal pre /\ ev_res ev = inl e
  | _ => Forall normal new
  end.

(** An action that lets the exceptions of the libraries through: it
    catches none, retries nothing and replaces none. *)
Definition propagates {A} (m : M L A) : Prop :=
  forall s, exists new,
    log (m s).2 = log s ++ new /\ Forall genuine new /\ faithful (m s).1 new.

(** The [on] argument of a merge. *)
Definition merge_key {A} (o : op L A) : option string :=
  match o with
  | gv_Shape_from_records _ _ on _ _ _ => Some on
  | _ => None
  end.

Definition asset (path : string) : Prop :=
  path = boundaries_shp \/ path = referendum_csv.

(** A call that opens no file but an asset and merges on no key but
    ['code']. *)
Definition call_ok (ev : event L) : Prop :=
  (forall path, opens (ev_op ev) = Some path -> asset path) /\
  (forall key, merge_key (ev_op ev) = Some key -> key = "code").

(** The outcome of an action: [Q] on its value and final state when it
    returns, [E] on its exception and final state when it raises. *)
Definition wp {A} (m : M L A) (Q : A -> state L -> Prop)
    (E : exn L -> state L -> Prop) (s : state L) : Prop :=
  match m s with
  | (Ok a, s') => Q a s'
  | (Raise e, s') => E e s'
  end.

(** The seven names the first cell binds. *)
Definition imports_bound (s : state L) : Prop :=
  globals s !! "pd" = Some (VModule "pandas") /\
  globals s !! "np" = Some (VModule "numpy") /\
  globals s !! "hv" = Some (VModule "holoviews") /\
  globals s !! "gv" = Some (VModule "geoviews") /\
  globals s !! "cartopy" = Some (VModule "cartopy") /\
  globals s !! "ccrs" = Some (VModule "cartopy.crs") /\
  globals s !! "cf" = Some (VModule "cartopy.feature").

(** An action that calls no library and raises none of its exceptions. *)
Definition silent {A} (m : M L A) : Prop :=
  forall s, log (m s).2 = log s /\ forall e, (m s).1 <> Raise (LibraryError e).

(** The element [e] is what a call [gv.Shape(g, crs=...)] among [new]
    returned. *)
Definition wraps (new : list (event L)) (g : Geometry L) (e : Element L) : Prop :=
  exists crs, Event (gv_Shape g crs None) (inr e) ∈ new.

(** The geometry a [gv.Shape] call is given. *)
Definition shaped {A} (o : op L A) : option (Geometry L) :=
  match o with
  | gv_Shape g _ _ => Some g
  | _ => None
  end.

(** The records a merge is given. *)
Definition merged {A} (o : op L A) : option (list (ShpRecord L)) :=
  match o with
  | gv_Shape_from_records records _ _ _ _ _ => Some records
  | _ => None
  end.


(** The files opened and the keys merged on by the calls [made], in
    order. *)
Definition opened (made : list (event L)) : list string :=
  omap (fun ev => opens (ev_op ev)) made.

Definition merge_keys (made : list (event L)) : list string :=
  omap (fun ev => merge_key (ev_op ev)) made.

(** The world is in [W] and every call made so far is [call_ok]. *)
Definition sound (W : World L -> Prop) (s : state L) : Prop :=
  W (world s) /\ Forall call_ok (log s).

(** Two conditions on an exception: it cannot be raised; it is raised in
    a sound state. *)
Definition never : exn L -> state L -> Prop := fun _ _ => False.

Definition stops (W : World L -> Prop) : exn L -> state L -> Prop :=
  fun _ s => sound W s.

(** The names bound after the third, the sixth, the seventh and the
    eighth cell. *)
Definition land_bound (s : state L) : Prop :=
  exists l, globals s !! "land_geoms" = Some (VGeoms l) /\ (22 <= length l)%nat.

Definition shapefile_bound (s : state L) : Prop :=
  globals s !! "shapefile" = Some (VStr boundaries_shp).

Definition shapes_bound (s : state L) : Prop :=
  exists r, globals s !! "shapes" = Some (VReader r).

Definition referendum_bound (s : state L) : Prop :=
  exists ds, globals s !! "referendum" = Some (VDataset ds).
End Properties.

(** ** Assumptions on the libraries

    [I] is a set of worlds: those in which the notebook is evaluated. *)
Section Assumptions.
Context (L : Library) (I : World L -> Prop).

(** No call leaves [I]. *)
Definition stable : Prop :=
  forall A (o : op L A) w, I w -> I (handle L o w).2.

(** A call raises only when it opens a file that is not there. *)
Definition fails_only_on_missing_files : Prop :=
  forall A (o : op L A) w, I w ->
    (forall path, opens o = Some path -> present L (fs L w) path) ->
    exists a, (handle L o w).1 = inr a.

(** The two assets are there. *)
Definition assets_present : Prop :=
  forall w, I w ->
    present L (fs L w) boundaries_shp /\ present L (fs L w) referendum_csv.

(** [cf.LAND] yields at least [n] geometries. *)
Definition land_yields (n : nat) : Prop :=
  forall w l, I w -> (handle L (cf_geometries LAND) w).1 = inr l -> (n <= length l)%nat.

(** A reader of the boundaries shapefile yields at least [n] records. *)
Definition shapefile_yields (n : nat) : Prop :=
  forall w r w' l, I w -> I w' ->
    (handle L (shapereader_Reader boundaries_shp) w).1 = inr r ->
    (handle L (Reader_records r) w').1 = inr l -> (n <= length l)%nat.



End Assumptions.

(** ** What the calls of an evaluation were given and answered *)
Section Observations.
Context {L : Library}.

(** The list that a call [cf.LAND.geometries()] yielded. *)
Definition land_yield (ev : event L) : option (list (Geometry L)) :=
  match ev with
  | Event o r =>
      match o in op _ A return LibExn L + A -> option (list (Geometry L)) with
      | cf_geometries f => fun r =>
          match f, r with
          | LAND, inr l => Some l
          | _, _ => None
          end
      | _ => fun _ => None
      end r
  end.

(** The reader that a call [cartopy.io.shapereader.Reader(path)] returned. *)
Definition reader_made (ev : event L) : option (Reader L) :=
  match ev with
  | Event o r =>
      match o in op _ A return LibExn L + A -> option (Reader L) with
      | shapereader_Reader _ => fun r =>
          match r with
          | inr x => Some x
          | inl _ => None
          end
      | _ => fun _ => None
      end r
  end.

(** The reader a generator of [records()] read and the records it yielded. *)
Definition read_of (ev : event L) : option (Reader L * list (ShpRecord L)) :=
  match ev with
  | Event o r =>
      match o in op _ A return LibExn L + A -> option (Reader L * list (ShpRecord L)) with
      | Reader_records x => fun r =>
          match r with
          | inr l => Some (x, l)
          | inl _ => None
          end
      | _ => fun _ => None
      end r
  end.

(** A call [ccrs.PlateCarree()]. *)
Definition crs_made (ev : event L) : option unit :=
  match ev_op ev with
  | ccrs_PlateCarree => Some tt
  | _ => None
  end.

(** The geometries given to [gv.Shape], the lists yielded by [cf.LAND], the
    readers made, the reads done, the records merged and the number of
    coordinate reference systems constructed by the calls [made]. *)
Definition shapes_of (made : list (event L)) : list (Geometry L) :=
  omap (fun ev => shaped (ev_op ev)) made.

Definition lands_of (made : list (event L)) : list (list (Geometry L)) :=
  omap land_yield made.

Definition readers_of (made : list (event L)) : list (Reader L) :=
  omap reader_made made.

Definition reads_of (made : list (event L)) : list (Reader L * list (ShpRecord L)) :=
  omap read_of made.

Definition merges_of (made : list (event L)) : list (list (ShpRecord L)) :=
  omap (fun ev => merged (ev_op ev)) made.

Definition crs_count (made : list (event L)) : nat :=
  length (omap crs_made made).

(** The Python type of a value, by name. *)
Definition kind_of (v : pyval L) : string :=
  match v with
  | VModule _ => "module"
  | VStr _ => "str"
  | VGeoms _ => "list"
  | VGeometry _ => "geometry"
  | VRecord _ => "Record"
  | VElement _ => "Element"
  | VFrame _ => "DataFrame"
  | VDataset _ => "Dataset"
  | VReader _ => "Reader"
  | VGen _ => "generator"
  end.

(** The names the nine cells assign, imports included. *)
Definition assigned_names : list string :=
  ["pd"; "np"; "hv"; "gv"; "cartopy"; "ccrs"; "cf"; "coasts"; "borders"; "land";
   "land_geoms"; "shapefile"; "shapes"; "referendum"].
End Observations.

Section Traces.
Context {L : Library}.

(** The layout of the second cell: the three features are constructed,
    and what is displayed is [(land + borders) + (land * borders).relabel]. *)
Definition layout_flow (new : list (event L)) (shown : list (pyval L)) : Prop :=
  exists c b l ab m r v : Element L,
    (Event (gv_Feature COASTLINE) (inr c) ∈ new) /\
    (Event (gv_Feature BORDERS) (inr b) ∈ new) /\
    (Event (gv_Feature LAND) (inr l) ∈ new) /\
    (Event (hv_add l b) (inr ab) ∈ new) /\
    (Event (hv_mul l b) (inr m) ∈ new) /\
    (Event (hv_relabel m "Overlay") (inr r) ∈ new) /\
    (Event (hv_add ab r) (inr v) ∈ new) /\
    shown !! 0%nat = Some (VElement v).

(** The geometries of [cf.LAND] in the third, fourth and fifth cell. *)
Definition land_flow (new : list (event L)) (shown : list (pyval L)) : Prop :=
  exists land g,
    lands_of new = [land] /\ land !! 21%nat = Some g /\
    shown !! 1%nat = Some (VGeometry g) /\
    shapes_of new = g :: land /\
    crs_count new = (length land + 3)%nat.

(** The reader of the seventh cell and its two generators. *)
Definition reader_flow (new : list (event L)) (shown : list (pyval L)) : Prop :=
  exists r recs1 recs2 x,
    readers_of new = [r] /\ reads_of new = [(r, recs1); (r, recs2)] /\
    merges_of new = [recs2] /\
    recs1 !! 0%nat = Some x /\ shown !! 5%nat = Some (VRecord x).

(** The table of the eighth cell on its way into the merge of the ninth. *)
Definition referendum_flow (new : list (event L)) (shown : list (pyval L)) : Prop :=
  exists (df : DataFrame L) (ds : Dataset L) (d h : DataFrame L)
      (recs : list (ShpRecord L)) (crs : Crs L) (e : Element L),
    (Event (pd_read_csv referendum_csv) (inr df) ∈ new) /\
    (Event (hv_Dataset df) (inr ds) ∈ new) /\
    (Event (hv_Dataset_data ds) (inr d) ∈ new) /\
    (Event (df_head d) (inr h) ∈ new) /\
    shown !! 6%nat = Some (VFrame h) /\
    (Event (gv_Shape_from_records recs ds "code" "leaveVoteshare" ["name"; "regionName"] crs)
       (inr e) ∈ new) /\
    shown !! 7%nat = Some (VElement e).

(** What an evaluation of the nine cells that started in [s] and returned
    in [s'] has done. *)
Definition full_trace (s s' : state L) : Prop :=
  exists new shown,
    log s' = log s ++ new /\ outs s' = outs s ++ shown /\
    gens s' = gens s ++ [None; None] /\
    dom (globals s') = dom (globals s) ∪ list_to_set assigned_names /\
    map kind_of shown =
      ["Element"; "geometry"; "Element"; "Element"; "Element"; "Record"; "DataFrame";
       "Element"] /\
    layout_flow new shown /\ land_flow new shown /\ reader_flow new shown /\
    referendum_flow new shown.

End Traces.

(** ** Names read and bound, from the syntax tree *)
Module Names.
Import Syntax.

(** The names an assignment or [for] target binds. *)
Fixpoint targets (e : expr) : list string :=
  match e with
  | Name x => [x]
  | Tuple es | List_ es => flat_map targets es
  | _ => []
  end.

Definition without (xs l : list string) : list string :=
  filter (fun x => x ∉ xs) l.

(** The names an expression reads from the scope around it, in the order
    of their evaluation.  A comprehension evaluates its iterable in the
    scope around it and binds its target in a scope of its own; so does a
    lambda its arguments. *)
Fixpoint free (e : expr) : list string :=
  match e with
  | Name x => [x]
  | Num _ | Str _ => []
  | Attribute v _ => free v
  | Call f args kws =>
      free f ++ flat_map free args ++ flat_map (fun kw => free kw.2) kws
  | Subscript v i => free v ++ free i
  | BinOp l _ r => free l ++ free r
  | BoolOp _ l r => free l ++ free r
  | Compare l _ r => free l ++ free r
  | List_ es | Tuple es => flat_map free es
  | Dict ks vs => flat_map free ks ++ flat_map free vs
  | ListComp x t i ifs | GeneratorExp x t i ifs =>
      free i ++ without (targets t) (flat_map free ifs ++ free x)
  | DictComp k v t i ifs =>
      free i ++ without (targets t) (flat_map free ifs ++ free k ++ free v)
  | Lambda args b => without args (free b)
  | IfExp c a b => free c ++ free a ++ free b
  | Yield v => from_option free [] v
  | Await v => free v
  end.

(** The names a statement reads and the names it binds.  An assignment
    evaluates its value before a subscripted target. *)
Definition target_loads (t : expr) : list string :=
  match t with
  | Name _ => []
  | _ => free t
  end.

Definition loads (s : stmt) : list string :=
  match s with
  | Assign t v => free v ++ target_loads t
  | AugAssign t _ v => free t ++ free v
  | _ => flat_map free (own_exprs s)
  end.

Definition stores (s : stmt) : list string :=
  match s with
  | Import m a => [default m a]
  | ImportFrom _ n a => [default n a]
  | Assign t _ | AugAssign t _ _ | For t _ _ _ => targets t
  | FunctionDef _ n _ _ | ClassDef n _ _ => [n]
  | _ => []
  end.

(** The names a sequence of statements reads before they are bound, when
    the names [bound] are bound at its start. *)
Fixpoint unbound (bound : list string) (body : list stmt) : list string :=
  match body with
  | [] => []
  | s :: rest => without bound (loads s) ++ unbound (stores s ++ bound) rest
  end.

(** The names a notebook binds, and those of them it never reads. *)
Definition bound_names (nb : list cell) : list string :=
  remove_dups (flat_map stores (concat (code_cells nb))).

Definition unused (nb : list cell) : list string :=
  without (flat_map loads (concat (code_cells nb))) (bound_names nb).

(** The first name a cell reads that the cell itself has not bound. *)
Definition first_needed (body : list stmt) : option string :=
  head (unbound builtins body).

End Names.

(** ** Two evaluations side by side *)
Section Side_by_side.
Context {L : Library}.







End Side_by_side.

(** * Theorems *)

(** ** Exceptions pass through *)
Section Propagation.
Context {L : Library}.

Lemma silent_propagates {A} (m : M L A) : silent m -> propagates m.
Proof.
  intros H s. destruct (H s) as [Hlog Hne]. exists [].
  rewrite Hlog, app_nil_r. repeat split; [constructor|].
  destruct (m s).1 as [a|[x|x| |e]]; simpl; try constructor.
  by destruct (Hne e).
Qed.

Lemma silent_ret {A} (a : A) : silent (@ret L A a).
Proof. by intros s. Qed.

Lemma silent_raise {A} (e : exn L) :
  (forall x, e <> LibraryError x) -> silent (@raise L A e).
Proof. intros H s. split; [done|]. intros x [=]. by apply (H x). Qed.

Lemma silent_bind {A B} (m : M L A) (f : A -> M L B) :
  silent m -> (forall a, silent (f a)) -> silent (bind m f).
Proof.
  intros Hm Hf s. unfold bind. destruct (Hm s) as [Hlog Hne].
  destruct (m s) as [[a|e] s1]; simpl in *.
  - destruct (Hf a s1) as [Hlog' Hne']. split; [congruence|done].
  - split; [done|]. intros x [=]. by apply (Hne x); f_equal.
Qed.

Lemma silent_get x : silent (@get L x).
Proof. intros s. unfold get. by destruct (globals s !! x). Qed.

Lemma silent_set x v : silent (@set L x v).
Proof. by intros s. Qed.

Lemma silent_records r : silent (@records L r).
Proof. by intros s. Qed.

Lemma silent_subscript {A} (l : list A) i : silent (@subscript L A l i).
Proof.
  intros s. unfold subscript. case_decide; [|done].
  by destruct (l !! _).
Qed.

Lemma silent_module alias name : silent (@module_ L alias name).
Proof.
  apply silent_bind; [apply silent_get|]. intros [m| | | | | | | | | ];
    try (by apply silent_raise).
  case_decide; [apply silent_ret | by apply silent_raise].
Qed.

Lemma propagates_bind {A B} (m : M L A) (f : A -> M L B) :
  propagates m -> (forall a, propagates (f a)) -> propagates (bind m f).
Proof.
  intros Hm Hf s. unfold bind. destruct (Hm s) as (new1 & Hlog1 & Hgen1 & Hf1).
  destruct (m s) as [[a|e] s1]; simpl in *.
  - destruct (Hf a s1) as (new2 & Hlog2 & Hgen2 & Hf2).
    exists (new1 ++ new2). rewrite Hlog2, Hlog1, app_assoc.
    split; [done|]. split; [by apply Forall_app|].
    destruct (f a s1).1 as [b|[x|x| |e]]; simpl in *;
      try (by apply Forall_app).
    destruct Hf2 as (pre & ev & -> & Hpre & Hev).
    exists (new1 ++ pre), ev. rewrite app_assoc.
    split; [done|]. split; [by apply Forall_app|done].
  - by exists new1.
Qed.

Lemma propagates_call {A} (o : op L A) : propagates (call o).
Proof.
  intros s. unfold call.
  destruct (handle L o (world s)) as [r w] eqn:Hh.
  exists [Event o r]. assert (genuine (Event o r)) as Hg.
  { exists (world s). simpl. by rewrite Hh. }
  destruct r as [e|a]; simpl.
  - split; [done|]. split; [by constructor|].
    exists [], (Event o (inl e)). by repeat split.
  - split; [done|]. split; [by constructor|].
    constructor; [by exists a|constructor].
Qed.

Lemma propagates_drain g : propagates (@drain L g).
Proof.
  intros s. unfold drain. destruct (gens s !! g) as [[r|]|] eqn:Hg.
  - apply (propagates_call (Reader_records r)
             (State (world s) (globals s) (<[g:=None]> (gens s)) (outs s) (log s))).
  - apply (silent_propagates _ (silent_ret []) s).
  - apply (silent_propagates _ (silent_ret []) s).
Qed.

Lemma propagates_display v : propagates (@display L v).
Proof.
  apply propagates_bind; [apply propagates_call|].
  intros _. by apply silent_propagates.
Qed.

End Propagation.

Create HintDb silent.
Create HintDb propagates.

#[local] Hint Resolve silent_ret silent_get silent_set silent_records silent_subscript
  silent_module : silent.
#[local] Hint Resolve propagates_call propagates_drain propagates_display : propagates.





(** ** Rules for the outcome of an action *)
Section Rules.
Context {L : Library}.
Implicit Types (s : state L) (E : exn L -> state L -> Prop).

Lemma wp_ret {A} (a : A) (Q : A -> state L -> Prop) E s :
  Q a s -> wp (ret a) Q E s.
Proof. done. Qed.

Lemma wp_raise {A} e (Q : A -> state L -> Prop) E s :
  E e s -> wp (raise e) Q E s.
Proof. done. Qed.

Lemma wp_bind {A B} (m : M L A) (f : A -> M L B) (Q : B -> state L -> Prop) E s :
  wp m (fun a s' => wp (f a) Q E s') E s -> wp (bind m f) Q E s.
Proof. unfold wp, bind. by destruct (m s) as [[a|e] s']. Qed.

Lemma wp_mono {A} (m : M L A) (Q Q' : A -> state L -> Prop) E E' s :
  wp m Q E s -> (forall a s', Q a s' -> Q' a s') -> (forall e s', E e s' -> E' e s') ->
  wp m Q' E' s.
Proof. unfold wp. destruct (m s) as [[a|e] s']; eauto. Qed.

Lemma wp_get x v (Q : pyval L -> state L -> Prop) E s :
  globals s !! x = Some v -> Q v s -> wp (get x) Q E s.
Proof. unfold wp, get. by intros ->. Qed.

Lemma wp_set x v (Q : unit -> state L -> Prop) E s :
  Q tt (State (world s) (<[x:=v]> (globals s)) (gens s) (outs s) (log s)) ->
  wp (set x v) Q E s.
Proof. done. Qed.

Lemma wp_call {A} (o : op L A) (Q : A -> state L -> Prop) E s :
  (forall r w, handle L o (world s) = (r, w) ->
     let s' := State w (globals s) (gens s) (outs s) (log s ++ [Event o r]) in
     match r with inr a => Q a s' | inl e => E (LibraryError e) s' end) ->
  wp (call o) Q E s.
Proof.
  unfold wp, call. intros H. destruct (handle L o (world s)) as [r w].
  specialize (H r w eq_refl). by destruct r.
Qed.

Lemma wp_module alias name (Q : unit -> state L -> Prop) E s :
  globals s !! alias = Some (VModule name) -> Q tt s -> wp (module_ alias name) Q E s.
Proof.
  intros Hx HQ. apply wp_bind, (wp_get _ _ _ _ _ Hx). by rewrite decide_True.
Qed.

Lemma wp_get_str x p (Q : string -> state L -> Prop) E s :
  globals s !! x = Some (VStr p) -> Q p s -> wp (get_str x) Q E s.
Proof. intros Hx HQ. by apply wp_bind, (wp_get _ _ _ _ _ Hx). Qed.

Lemma wp_get_geoms x l (Q : list (Geometry L) -> state L -> Prop) E s :
  globals s !! x = Some (VGeoms l) -> Q l s -> wp (get_geoms x) Q E s.
Proof. intros Hx HQ. by apply wp_bind, (wp_get _ _ _ _ _ Hx). Qed.

Lemma wp_get_element x e (Q : Element L -> state L -> Prop) E s :
  globals s !! x = Some (VElement e) -> Q e s -> wp (get_element x) Q E s.
Proof. intros Hx HQ. by apply wp_bind, (wp_get _ _ _ _ _ Hx). Qed.

Lemma wp_get_frame x d (Q : DataFrame L -> state L -> Prop) E s :
  globals s !! x = Some (VFrame d) -> Q d s -> wp (get_frame x) Q E s.
Proof. intros Hx HQ. by apply wp_bind, (wp_get _ _ _ _ _ Hx). Qed.

Lemma wp_get_dataset x d (Q : Dataset L -> state L -> Prop) E s :
  globals s !! x = Some (VDataset d) -> Q d s -> wp (get_dataset x) Q E s.
Proof. intros Hx HQ. by apply wp_bind, (wp_get _ _ _ _ _ Hx). Qed.

Lemma wp_get_reader x r (Q : Reader L -> state L -> Prop) E s :
  globals s !! x = Some (VReader r) -> Q r s -> wp (get_reader x) Q E s.
Proof. intros Hx HQ. by apply wp_bind, (wp_get _ _ _ _ _ Hx). Qed.

Lemma wp_records r (Q : nat -> state L -> Prop) E s :
  Q (length (gens s))
    (State (world s) (globals s) (gens s ++ [Some r]) (outs s) (log s)) ->
  wp (records r) Q E s.
Proof. done. Qed.

(** Draining the generator that was created last. *)
Lemma wp_drain_fresh r gs w g os lg (Q : list (ShpRecord L) -> state L -> Prop) E :
  wp (call (Reader_records r)) Q E (State w g (gs ++ [None]) os lg) ->
  wp (drain (length gs)) Q E (State w g (gs ++ [Some r]) os lg).
Proof.
  unfold wp at 2, drain. simpl.
  rewrite lookup_app_r, Nat.sub_diag by done. simpl.
  replace (<[length gs:=None]> (gs ++ [Some r])) with (gs ++ [None : option (Reader L)]);
    [done|].
  by rewrite insert_app_r_alt, Nat.sub_diag.
Qed.

Lemma wp_display v (Q : unit -> state L -> Prop) E s :
  (forall r w, handle L (ipy_display v) (world s) = (r, w) ->
     match r with
     | inr _ => Q tt (State w (globals s) (gens s) (outs s ++ [v])
                        (log s ++ [Event (ipy_display v) r]))
     | inl e => E (LibraryError e)
                  (State w (globals s) (gens s) (outs s) (log s ++ [Event (ipy_display v) r]))
     end) ->
  wp (display v) Q E s.
Proof.
  intros H. apply wp_bind, wp_call. intros r w Hh. specialize (H r w Hh).
  by destruct r.
Qed.

(** A subscript in bounds. *)
Lemma wp_subscript {A} (l : list A) (i : nat) x (Q : A -> state L -> Prop) E s :
  l !! i = Some x -> Q x s -> wp (subscript l (Z.of_nat i)) Q E s.
Proof.
  intros Hx HQ. unfold wp, subscript. pose proof (lookup_lt_Some _ _ _ Hx).
  cbv zeta. rewrite (decide_False (P := Z.of_nat i < 0)) by lia.
  rewrite decide_True by lia. by rewrite Nat2Z.id, Hx.
Qed.

(** A subscript out of bounds. *)
Lemma wp_subscript_out {A} (l : list A) (i : nat) (Q : A -> state L -> Prop) E s :
  (length l <= i)%nat -> E IndexError s -> wp (subscript l (Z.of_nat i)) Q E s.
Proof.
  intros Hi HE. unfold wp, subscript.
  cbv zeta. rewrite (decide_False (P := Z.of_nat i < 0)) by lia.
  by rewrite decide_False by lia.
Qed.
End Rules.

Ltac solve_lookup :=
  cbn [world globals gens outs log];
  repeat first [ rewrite lookup_insert_ne by done | rewrite lookup_insert_eq ];
  first [ reflexivity | eassumption ].

(** ** Evaluation without exception *)
Section Evaluation.
Context {L : Library} (I : World L -> Prop).
Hypothesis Hstable : stable L I.
Hypothesis Hfails : fails_only_on_missing_files L I.

Implicit Types (s : state L).

(** A call that opens no file, or one that is there, returns. *)
Lemma wp_call_returns {A} (o : op L A) (Q : A -> state L -> Prop) E s :
  I (world s) ->
  (forall path, opens o = Some path -> present L (fs L (world s)) path) ->
  (forall a w, I w -> handle L o (world s) = (inr a, w) ->
     Q a (State w (globals s) (gens s) (outs s) (log s ++ [Event o (inr a)]))) ->
  wp (call o) Q E s.
Proof.
  intros Hw Ho HQ. apply wp_call. intros r w Hh.
  destruct (Hfails _ o (world s) Hw Ho) as [a Ha].
  pose proof (Hstable _ o (world s) Hw) as Hw'.
  rewrite Hh in Ha, Hw'. simpl in *. subst r. by apply HQ.
Qed.

Lemma wp_display_returns v (Q : unit -> state L -> Prop) E s :
  I (world s) ->
  (forall w, I w ->
     Q tt (State w (globals s) (gens s) (outs s ++ [v])
             (log s ++ [Event (ipy_display v) (inr tt)]))) ->
  wp (display v) Q E s.
Proof.
  intros Hw HQ. apply wp_bind, wp_call_returns; [done|by intros ? [=]|].
  intros [] w Hw' _. by apply HQ.
Qed.
End Evaluation.

Ltac wp_step :=
  lazymatch goal with
  | |- wp (bind _ _) _ _ _ => apply wp_bind
  | |- wp (ret _) _ _ _ => apply wp_ret
  | |- wp (set _ _) _ _ _ => apply wp_set
  | |- wp (module_ _ _) _ _ _ => eapply wp_module; [solve_lookup|]
  | |- wp (get_str _) _ _ _ => eapply wp_get_str; [solve_lookup|]
  | |- wp (get_geoms _) _ _ _ => eapply wp_get_geoms; [solve_lookup|]
  | |- wp (get_element _) _ _ _ => eapply wp_get_element; [solve_lookup|]
  | |- wp (get_frame _) _ _ _ => eapply wp_get_frame; [solve_lookup|]
  | |- wp (get_dataset _) _ _ _ => eapply wp_get_dataset; [solve_lookup|]
  | |- wp (get_reader _) _ _ _ => eapply wp_get_reader; [solve_lookup|]
  | |- wp (records _) _ _ _ => apply wp_records
  | |- wp (drain _) _ _ _ => apply wp_drain_fresh
  | |- wp (import_as _ _) _ _ _ => unfold import_as
  | |- wp (from_import_as _ _ _) _ _ _ => unfold from_import_as
  end; cbn [world globals gens outs log].

Ltac wp_returns I :=
  lazymatch goal with
  | |- wp (call _) _ _ _ =>
      eapply (wp_call_returns I);
      [ eassumption | eassumption | cbn [world]; eassumption
      | simpl; first
          [ by intros ? [=]
          | intros ? [= <-];
            match goal with
            | Ha : assets_present _ _ |- _ =>
                first [ apply (proj1 (Ha _ ltac:(eassumption)))
                      | apply (proj2 (Ha _ ltac:(eassumption))) ]
            end ]
      | let a := fresh "a" in let w := fresh "w" in let Hw := fresh "Hw" in
        let Hh := fresh "Hh" in intros a w Hw Hh ]
  | |- wp (display _) _ _ _ =>
      eapply (wp_display_returns I);
      [ eassumption | eassumption | cbn [world]; eassumption
      | let w := fresh "w" in let Hw := fresh "Hw" in intros w Hw ]
  end; cbn [world globals gens outs log] in *.


(** ** The dict comprehension of the fifth cell *)
Section Comprehension.
Context {L : Library} (I : World L -> Prop).
Hypothesis Hstable : stable L I.
Hypothesis Hfails : fails_only_on_missing_files L I.

Implicit Types (s : state L).

Lemma wraps_app_l (new new' : list (event L)) g e : wraps new g e -> wraps (new ++ new') g e.
Proof. intros [c Hc]. exists c. apply elem_of_app. by left. Qed.

Lemma wraps_app_r (new new' : list (event L)) g e : wraps new' g e -> wraps (new ++ new') g e.
Proof. intros [c Hc]. exists c. apply elem_of_app. by right. Qed.

(** The items from position [k] on are assigned to the keys from [k] on,
    each to the element that [gv.Shape] returned for it; the other keys
    of the dict are left as they were. *)
Lemma comprehension_builds (items : list (Geometry L)) (k : nat) (d : gmap Z (Element L))
    (Q : gmap Z (Element L) -> state L -> Prop) E s :
  I (world s) ->
  globals s !! "gv" = Some (VModule "geoviews") ->
  globals s !! "ccrs" = Some (VModule "cartopy.crs") ->
  (forall es d' new w,
     Forall2 (wraps new) items es ->
     (forall j : Z, d' !! j =
        if decide (Z.of_nat k <= j < Z.of_nat (k + length es))
        then es !! (Z.to_nat j - k)%nat else d !! j) ->
     I w ->
     Q d' (State w (globals s) (gens s) (outs s) (log s ++ new))) ->
  wp (dict_comprehension shape_item (imap (fun i g => (Z.of_nat (k + i), g)) items) d) Q E s.
Proof.
  revert k d s Q. induction items as [|g rest IH]; intros k d s Q Hw Hgv Hccrs HQ.
  - simpl. apply wp_ret. destruct s as [w gl gn os lg]. simpl in *.
    specialize (HQ [] d [] w). rewrite app_nil_r in HQ. apply HQ; [constructor| |done].
    intros j. simpl. case_decide; [lia|done].
  - rewrite imap_cons. simpl. unfold shape_item at 1. simpl.
    repeat first [ wp_step | wp_returns I ].
    rewrite (imap_ext _ (fun i g => (Z.of_nat (S k + i), g))).
    2:{ intros i x _. simpl. do 2 f_equal. lia. }
    apply IH; [done..|]. cbn [world globals gens outs log].
    intros es d' new w' Hes Hd' Hw'. rewrite <- !app_assoc.
    apply (HQ (a0 :: es)); [| |done].
    + constructor.
      * exists a. simpl. apply list_elem_of_further, list_elem_of_here.
      * eapply Forall2_impl; [exact Hes|]. intros x y Hxy. by do 2 apply wraps_app_r.
    + intros j. rewrite Hd'. simpl. rewrite Nat.add_0_r.
      repeat case_decide; try lia.
      * destruct (Z.to_nat j - k)%nat as [|n] eqn:Hn; [lia|]. simpl. f_equal. lia.
      * assert (j = Z.of_nat k) as -> by lia. rewrite lookup_insert_eq.
        by rewrite Nat2Z.id, Nat.sub_diag.
      * rewrite lookup_insert_ne by lia. done.
Qed.
End Comprehension.

(** ** Every cell returns *)
Section Cells_return.
Context {L : Library} (I : World L -> Prop).
Hypothesis Hstable : stable L I.
Hypothesis Hfails : fails_only_on_missing_files L I.
Hypothesis Hassets : assets_present L I.
Hypothesis Hland : land_yields L I 22.
Hypothesis Hshapes : shapefile_yields L I 1.

Implicit Types (s : state L).

Lemma cell1_returns s :
  I (world s) ->
  wp cell1 (fun _ s' => I (world s') /\ imports_bound s') never s.
Proof.
  intros Hw. unfold cell1.
  repeat first [ wp_step | wp_returns I ].
  split; [done|]. unfold imports_bound. repeat split; solve_lookup.
Qed.

Lemma cell2_returns s :
  I (world s) -> imports_bound s ->
  wp cell2 (fun _ s' => I (world s') /\ imports_bound s') never s.
Proof.
  intros Hw (Hpd & Hnp & Hhv & Hgv & Hcartopy & Hccrs & Hcf). unfold cell2.
  repeat first [ wp_step | wp_returns I ].
  split; [done|]. unfold imports_bound. repeat split; solve_lookup.
Qed.

Lemma cell3_returns s :
  I (world s) -> imports_bound s ->
  wp cell3 (fun _ s' => I (world s') /\ imports_bound s' /\ land_bound s') never s.
Proof.
  intros Hw (Hpd & Hnp & Hhv & Hgv & Hcartopy & Hccrs & Hcf). unfold cell3.
  repeat first [ wp_step | wp_returns I ].
  assert (22 <= length a)%nat as Hlen.
  { apply (Hland (world s)); [done|]. by rewrite Hh. }
  destruct (lookup_lt_is_Some_2 a 21) as [g Hg]; [lia|].
  apply (wp_subscript a 21 g); [done|].
  repeat first [ wp_step | wp_returns I ].
  split; [done|]. split; [unfold imports_bound; repeat split; solve_lookup|].
  exists a. split; [solve_lookup|done].
Qed.

Lemma cell4_returns s :
  I (world s) -> imports_bound s -> land_bound s ->
  wp cell4 (fun _ s' => I (world s') /\ imports_bound s' /\ land_bound s') never s.
Proof.
  intros Hw (Hpd & Hnp & Hhv & Hgv & Hcartopy & Hccrs & Hcf) (l & Hl & Hlen). unfold cell4.
  destruct (lookup_lt_is_Some_2 l 21) as [g Hg]; [lia|].
  repeat first [ wp_step | wp_returns I ].
  apply (wp_subscript l 21 g); [done|].
  repeat first [ wp_step | wp_returns I ].
  split; [done|]. split; [by unfold imports_bound|]. by exists l.
Qed.

Lemma cell5_returns s :
  I (world s) -> imports_bound s -> land_bound s ->
  wp cell5 (fun _ s' => I (world s') /\ imports_bound s' /\ land_bound s') never s.
Proof.
  intros Hw (Hpd & Hnp & Hhv & Hgv & Hcartopy & Hccrs & Hcf) (l & Hl & Hlen). unfold cell5.
  repeat first [ wp_step | wp_returns I ].
  apply (comprehension_builds I Hstable Hfails l 0); [done..|].
  intros es d' new w' _ _ Hw'.
  repeat first [ wp_step | wp_returns I ].
  split; [done|]. split; [by unfold imports_bound|]. by exists l.
Qed.

Lemma cell6_returns s :
  I (world s) -> imports_bound s ->
  wp cell6 (fun _ s' => I (world s') /\ imports_bound s' /\ shapefile_bound s') never s.
Proof.
  intros Hw (Hpd & Hnp & Hhv & Hgv & Hcartopy & Hccrs & Hcf). unfold cell6.
  repeat first [ wp_step | wp_returns I ].
  split; [done|]. split; [unfold imports_bound; repeat split; solve_lookup|].
  unfold shapefile_bound. solve_lookup.
Qed.

Lemma cell7_returns s :
  I (world s) -> imports_bound s -> shapefile_bound s ->
  wp cell7 (fun _ s' => I (world s') /\ imports_bound s' /\ shapes_bound s') never s.
Proof.
  intros Hw (Hpd & Hnp & Hhv & Hgv & Hcartopy & Hccrs & Hcf) Hshp.
  unfold cell7, cell7_bind, cell7_inspect, shapefile_bound in *.
  repeat first [ wp_step | wp_returns I ].
  assert (1 <= length a0)%nat as Hlen.
  { apply (Hshapes (world s) a w); [done..|by rewrite Hh|by rewrite Hh0]. }
  destruct (lookup_lt_is_Some_2 a0 0) as [x Hx]; [lia|].
  apply (wp_subscript a0 0 x); [done|].
  repeat first [ wp_step | wp_returns I ].
  split; [done|]. split; [unfold imports_bound; repeat split; solve_lookup|].
  exists a. solve_lookup.
Qed.

Lemma cell8_returns s :
  I (world s) -> imports_bound s -> shapes_bound s ->
  wp cell8 (fun _ s' => I (world s') /\ imports_bound s' /\ shapes_bound s' /\
                        referendum_bound s') never s.
Proof.
  intros Hw (Hpd & Hnp & Hhv & Hgv & Hcartopy & Hccrs & Hcf) (r & Hr). unfold cell8.
  repeat first [ wp_step | wp_returns I ].
  split; [done|]. split; [unfold imports_bound; repeat split; solve_lookup|].
  split; [exists r; solve_lookup|]. exists a0. solve_lookup.
Qed.

Lemma cell9_returns s :
  I (world s) -> imports_bound s -> shapes_bound s -> referendum_bound s ->
  wp cell9 (fun _ s' => True) never s.
Proof.
  intros Hw (Hpd & Hnp & Hhv & Hgv & Hcartopy & Hccrs & Hcf) (r & Hr) (ds & Hds).
  unfold cell9.
  repeat first [ wp_step | wp_returns I ].
  done.
Qed.

Lemma notebook_returns w : I w -> wp (run notebook) (fun _ _ => True) never (fresh w).
Proof.
  intros Hw. unfold notebook, run.
  apply wp_bind. eapply wp_mono; [by apply cell1_returns| |done].
  intros _ s1 (Hw1 & Hi1).
  apply wp_bind. eapply wp_mono; [by apply cell2_returns| |done].
  intros _ s2 (Hw2 & Hi2).
  apply wp_bind. eapply wp_mono; [by apply cell3_returns| |done].
  intros _ s3 (Hw3 & Hi3 & Hl3).
  apply wp_bind. eapply wp_mono; [by apply cell4_returns| |done].
  intros _ s4 (Hw4 & Hi4 & Hl4).
  apply wp_bind. eapply wp_mono; [by apply cell5_returns| |done].
  intros _ s5 (Hw5 & Hi5 & Hl5).
  apply wp_bind. eapply wp_mono; [by apply cell6_returns| |done].
  intros _ s6 (Hw6 & Hi6 & Hf6).
  apply wp_bind. eapply wp_mono; [by apply cell7_returns| |done].
  intros _ s7 (Hw7 & Hi7 & Hs7).
  apply wp_bind. eapply wp_mono; [by apply cell8_returns| |done].
  intros _ s8 (Hw8 & Hi8 & Hs8 & Hr8).
  apply wp_bind. eapply wp_mono; [by apply cell9_returns| |done].
  by intros _ s9 _.
Qed.
End Cells_return.

(** ** What the calls of an evaluation open and merge on *)
Section Calls.
Context {L : Library} (W : World L -> Prop).
Hypothesis Hstable : stable L W.

Implicit Types (s : state L).

Lemma wp_call_sound {A} (o : op L A) (Q : A -> state L -> Prop) s :
  sound W s -> (forall r, call_ok (Event o r)) ->
  (forall a w, sound W (State w (globals s) (gens s) (outs s) (log s ++ [Event o (inr a)])) ->
     Q a (State w (globals s) (gens s) (outs s) (log s ++ [Event o (inr a)]))) ->
  wp (call o) Q (stops W) s.
Proof.
  intros [Hw Hlog] Ho HQ. apply wp_call. intros r w Hh.
  assert (sound W (State w (globals s) (gens s) (outs s) (log s ++ [Event o r]))) as Hs.
  { split; simpl.
    - pose proof (Hstable _ o (world s) Hw) as Hw'. by rewrite Hh in Hw'.
    - apply Forall_app. split; [done|]. by constructor. }
  destruct r as [e|a]; simpl; [done|]. by apply HQ.
Qed.

Lemma wp_display_sound v (Q : unit -> state L -> Prop) s :
  sound W s ->
  (forall w lg, sound W (State w (globals s) (gens s) (outs s ++ [v]) lg) ->
     Q tt (State w (globals s) (gens s) (outs s ++ [v]) lg)) ->
  wp (display v) Q (stops W) s.
Proof.
  intros Hs HQ. apply wp_bind, wp_call_sound; [done| |].
  - intros r. split; simpl; by intros ? [=].
  - intros [] w Hs'. by apply HQ.
Qed.

Lemma wp_subscript_sound {A} (l : list A) i (Q : A -> state L -> Prop) s :
  sound W s -> (forall x, Q x s) -> wp (subscript l i) Q (stops W) s.
Proof.
  intros Hs HQ. unfold wp, subscript. cbv zeta. case_decide; [|done].
  destruct (l !! _); [apply HQ|done].
Qed.

Lemma comprehension_sound (items : list (Z * Geometry L)) (d : gmap Z (Element L))
    (Q : gmap Z (Element L) -> state L -> Prop) s :
  sound W s ->
  globals s !! "gv" = Some (VModule "geoviews") ->
  globals s !! "ccrs" = Some (VModule "cartopy.crs") ->
  (forall d' w lg, sound W (State w (globals s) (gens s) (outs s) lg) ->
     Q d' (State w (globals s) (gens s) (outs s) lg)) ->
  wp (dict_comprehension shape_item items d) Q (stops W) s.
Proof.
  revert d s. induction items as [|x rest IH]; intros d s Hs Hgv Hccrs HQ; simpl.
  - apply wp_ret. destruct s. by apply HQ.
  - unfold shape_item at 1.
    apply wp_bind, wp_bind. eapply wp_module; [done|].
    apply wp_bind. eapply wp_module; [done|].
    apply wp_bind, wp_call_sound; [done| |].
    { intros r. split; simpl; by intros ? [=]. }
    intros crs w Hs1.
    apply wp_bind, wp_call_sound; [done| |].
    { intros r. split; simpl; by intros ? [=]. }
    intros e w' Hs2. apply wp_ret.
    apply IH; [done..|]. cbn [world globals gens outs log]. apply HQ.
Qed.
End Calls.

Ltac solve_call_ok :=
  let r := fresh in
  intros r; split; simpl;
  first [ by intros ? [=]
        | intros ? [= <-]; first [ by left | by right ]
        | by intros ? [= <-] ].

Ltac wp_sound W :=
  lazymatch goal with
  | |- wp (call _) _ _ _ =>
      eapply (wp_call_sound W);
      [ eassumption | eassumption | solve_call_ok
      | let a := fresh "a" in let w := fresh "w" in let Hs := fresh "Hs" in
        intros a w Hs ]
  | |- wp (display _) _ _ _ =>
      eapply (wp_display_sound W);
      [ eassumption | eassumption
      | let w := fresh "w" in let lg := fresh "lg" in let Hs := fresh "Hs" in
        intros w lg Hs ]
  | |- wp (subscript _ _) _ _ _ =>
      eapply (wp_subscript_sound W); [ eassumption | intros ? ]
  end; cbn [world globals gens outs log] in *.

Section Cells_sound.
Context {L : Library} (W : World L -> Prop).
Hypothesis Hstable : stable L W.

Implicit Types (s : state L).

Lemma cell1_sound s :
  sound W s ->
  wp cell1 (fun _ s' => sound W s' /\ imports_bound s') (stops W) s.
Proof.
  intros Hs. unfold cell1.
  repeat first [ wp_step | wp_sound W ].
  split; [done|]. unfold imports_bound. repeat split; solve_lookup.
Qed.

Lemma cell2_sound s :
  sound W s -> imports_bound s ->
  wp cell2 (fun _ s' => sound W s' /\ imports_bound s') (stops W) s.
Proof.
  intros Hs (Hpd & Hnp & Hhv & Hgv & Hcartopy & Hccrs & Hcf). unfold cell2.
  repeat first [ wp_step | wp_sound W ].
  split; [done|]. unfold imports_bound. repeat split; solve_lookup.
Qed.

Lemma cell3_sound s :
  sound W s -> imports_bound s ->
  wp cell3 (fun _ s' => sound W s' /\ imports_bound s' /\
              exists l, globals s' !! "land_geoms" = Some (VGeoms l)) (stops W) s.
Proof.
  intros Hs (Hpd & Hnp & Hhv & Hgv & Hcartopy & Hccrs & Hcf). unfold cell3.
  repeat first [ wp_step | wp_sound W ].
  split; [done|]. split; [unfold imports_bound; repeat split; solve_lookup|].
  exists a. solve_lookup.
Qed.

Lemma cell4_sound s :
  sound W s -> imports_bound s ->
  (exists l, globals s !! "land_geoms" = Some (VGeoms l)) ->
  wp cell4 (fun _ s' => sound W s' /\ imports_bound s' /\
              exists l, globals s' !! "land_geoms" = Some (VGeoms l)) (stops W) s.
Proof.
  intros Hs (Hpd & Hnp & Hhv & Hgv & Hcartopy & Hccrs & Hcf) (l & Hl). unfold cell4.
  repeat first [ wp_step | wp_sound W ].
  split; [done|]. split; [by unfold imports_bound|]. by exists l.
Qed.

Lemma cell5_sound s :
  sound W s -> imports_bound s ->
  (exists l, globals s !! "land_geoms" = Some (VGeoms l)) ->
  wp cell5 (fun _ s' => sound W s' /\ imports_bound s') (stops W) s.
Proof.
  intros Hs (Hpd & Hnp & Hhv & Hgv & Hcartopy & Hccrs & Hcf) (l & Hl). unfold cell5.
  repeat first [ wp_step | wp_sound W ].
  apply (comprehension_sound W Hstable); [done..|].
  intros d' w' lg Hs'.
  repeat first [ wp_step | wp_sound W ].
  split; [done|]. by unfold imports_bound.
Qed.

Lemma cell6_sound s :
  sound W s -> imports_bound s ->
  wp cell6 (fun _ s' => sound W s' /\ imports_bound s' /\
              globals s' !! "shapefile" = Some (VStr boundaries_shp)) (stops W) s.
Proof.
  intros Hs (Hpd & Hnp & Hhv & Hgv & Hcartopy & Hccrs & Hcf). unfold cell6.
  repeat first [ wp_step | wp_sound W ].
  split; [done|]. split; [unfold imports_bound; repeat split; solve_lookup|].
  solve_lookup.
Qed.

Lemma cell7_sound s :
  sound W s -> imports_bound s ->
  globals s !! "shapefile" = Some (VStr boundaries_shp) ->
  wp cell7 (fun _ s' => sound W s' /\ imports_bound s' /\
              exists r, globals s' !! "shapes" = Some (VReader r)) (stops W) s.
Proof.
  intros Hs (Hpd & Hnp & Hhv & Hgv & Hcartopy & Hccrs & Hcf) Hshp.
  unfold cell7, cell7_bind, cell7_inspect.
  repeat first [ wp_step | wp_sound W ].
  split; [done|]. split; [unfold imports_bound; repeat split; solve_lookup|].
  exists a. solve_lookup.
Qed.

Lemma cell8_sound s :
  sound W s -> imports_bound s ->
  (exists r, globals s !! "shapes" = Some (VReader r)) ->
  wp cell8 (fun _ s' => sound W s' /\ imports_bound s' /\
              (exists r, globals s' !! "shapes" = Some (VReader r)) /\
              exists ds, globals s' !! "referendum" = Some (VDataset ds)) (stops W) s.
Proof.
  intros Hs (Hpd & Hnp & Hhv & Hgv & Hcartopy & Hccrs & Hcf) (r & Hr). unfold cell8.
  repeat first [ wp_step | wp_sound W ].
  split; [done|]. split; [unfold imports_bound; repeat split; solve_lookup|].
  split; [exists r; solve_lookup|]. exists a0. solve_lookup.
Qed.

Lemma cell9_sound s :
  sound W s -> imports_bound s ->
  (exists r, globals s !! "shapes" = Some (VReader r)) ->
  (exists ds, globals s !! "referendum" = Some (VDataset ds)) ->
  wp cell9 (fun _ s' => sound W s') (stops W) s.
Proof.
  intros Hs (Hpd & Hnp & Hhv & Hgv & Hcartopy & Hccrs & Hcf) (r & Hr) (ds & Hds).
  unfold cell9.
  repeat first [ wp_step | wp_sound W ].
  done.
Qed.

(** Whether the evaluation returns or raises, the world it ends in is in
    [W] and every call it made is [call_ok]. *)
Lemma notebook_sound w : W w -> sound W (run notebook (fresh w)).2.
Proof.
  intros Hw.
  assert (wp (run notebook) (fun _ s' => sound W s') (stops W) (fresh w)) as H.
  { assert (sound W (fresh w)) as Hs by (by split; [|constructor]).
    unfold notebook, run.
    apply wp_bind. eapply wp_mono; [by apply cell1_sound| |done].
    intros _ s1 (Hs1 & Hi1).
    apply wp_bind. eapply wp_mono; [by apply cell2_sound| |done].
    intros _ s2 (Hs2 & Hi2).
    apply wp_bind. eapply wp_mono; [by apply cell3_sound| |done].
    intros _ s3 (Hs3 & Hi3 & Hl3).
    apply wp_bind. eapply wp_mono; [by apply cell4_sound| |done].
    intros _ s4 (Hs4 & Hi4 & Hl4).
    apply wp_bind. eapply wp_mono; [by apply cell5_sound| |done].
    intros _ s5 (Hs5 & Hi5).
    apply wp_bind. eapply wp_mono; [by apply cell6_sound| |done].
    intros _ s6 (Hs6 & Hi6 & Hf6).
    apply wp_bind. eapply wp_mono; [by apply cell7_sound| |done].
    intros _ s7 (Hs7 & Hi7 & Hr7).
    apply wp_bind. eapply wp_mono; [by apply cell8_sound| |done].
    intros _ s8 (Hs8 & Hi8 & Hr8 & Hd8).
    apply wp_bind. eapply wp_mono; [by apply cell9_sound| |done].
    by intros ? s9 Hs9. }
  unfold wp in H. by destruct (run notebook (fresh w)) as [[[]|e] s'].
Qed.
End Cells_sound.

(** ** The overlay of the fifth cell *)
Section Overlay.
Context {L : Library} (I : World L -> Prop).
Hypothesis Hstable : stable L I.
Hypothesis Hfails : fails_only_on_missing_files L I.

Implicit Types (s : state L).

(** A dict with the lookups of [comprehension_builds], from the empty
    dict and position 0, has exactly the keys [0 .. n-1]. *)
Lemma keys_of_enumeration (es : list (Element L)) (d : gmap Z (Element L)) :
  (forall j : Z, d !! j =
     if decide (Z.of_nat 0 <= j < Z.of_nat (0 + length es))
     then es !! (Z.to_nat j - 0)%nat else (∅ : gmap Z (Element L)) !! j) ->
  dom d = list_to_set (seqZ 0 (Z.of_nat (length es))) /\ size d = length es.
Proof.
  intros Hd.
  assert (dom d = list_to_set (seqZ 0 (Z.of_nat (length es)))) as Hdom.
  { apply set_eq. intros j.
    rewrite elem_of_dom, elem_of_list_to_set, elem_of_seqZ, Hd.
    case_decide as Hj.
    - split; [lia|]. intros _. apply lookup_lt_is_Some_2. lia.
    - rewrite lookup_empty. split; [by intros [? [=]]|lia]. }
  split; [done|].
  rewrite <- size_dom, Hdom, size_list_to_set by apply NoDup_seqZ.
  rewrite length_seqZ. lia.
Qed.

Lemma cell5_builds s (land_geoms : list (Geometry L)) :
  I (world s) -> imports_bound s ->
  globals s !! "land_geoms" = Some (VGeoms land_geoms) ->
  wp cell5
    (fun _ s' => exists d overlay new,
       log s' = log s ++ new /\
       outs s' = outs s ++ [VElement overlay] /\
       Event (hv_NdOverlay d) (inr overlay) ∈ new /\
       size d = length land_geoms /\
       dom d = list_to_set (seqZ 0 (Z.of_nat (length land_geoms))) /\
       forall i g, land_geoms !! i = Some g ->
         exists e, d !! Z.of_nat i = Some e /\ wraps new g e)
    (fun _ _ => False) s.
Proof.
  intros Hw (Hpd & Hnp & Hhv & Hgv & Hcartopy & Hccrs & Hcf) Hl. unfold cell5.
  repeat first [ wp_step | wp_returns I ].
  apply (comprehension_builds I Hstable Hfails land_geoms 0); [done..|].
  intros es d new w' Hes Hd Hw'.
  repeat first [ wp_step | wp_returns I ].
  destruct (keys_of_enumeration es d Hd) as [Hdom Hsize].
  pose proof (Forall2_length _ _ _ Hes) as Hlen.
  exists d, a0, ([Event (ipy_magic true "opts" "NdOverlay [aspect=2]") (inr a)] ++ new ++
                [Event (hv_NdOverlay d) (inr a0)] ++
                [Event (ipy_display (VElement a0)) (inr tt)]).
  split; [by rewrite <- !app_assoc|]. split; [done|].
  split; [apply elem_of_app; right; apply elem_of_app; right; apply list_elem_of_here|].
  rewrite Hlen. split; [done|]. split; [done|].
  intros i g Hg.
  destruct (Forall2_lookup_l _ _ _ _ _ Hes Hg) as (e & He & Hwraps).
  exists e. split.
  - rewrite Hd. rewrite decide_True.
    + by rewrite Nat.sub_0_r, Nat2Z.id.
    + apply lookup_lt_Some in He. lia.
  - by apply wraps_app_r, wraps_app_l.
Qed.
End Overlay.

Ltac solve_shaped :=
  repeat (apply Forall_cons; split;
          [ simpl; first [ by intros ? [=] | by intros ? [= <-] ] | ]);
  by apply Forall_nil.

(** ** The two subscripts *)
Section Subscripts.
Context {L : Library}.
Implicit Types (s : state L).

Lemma wp_call_known {A} (o : op L A) r w (Q : A -> state L -> Prop) E s :
  handle L o (world s) = (r, w) ->
  match r with
  | inr a => Q a (State w (globals s) (gens s) (outs s) (log s ++ [Event o r]))
  | inl e => E (LibraryError e) (State w (globals s) (gens s) (outs s) (log s ++ [Event o r]))
  end ->
  wp (call o) Q E s.
Proof.
  intros Hh HQ. apply wp_call. intros r' w' Hh'.
  rewrite Hh in Hh'. injection Hh' as <- <-. exact HQ.
Qed.

Lemma wp_outcome {A} (m : M L A) (Q : A -> state L -> Prop) E s :
  wp m Q E s ->
  match (m s).1 with
  | Ok a => Q a (m s).2
  | Raise e => E e (m s).2
  end.
Proof. unfold wp. by destruct (m s) as [[a|e] s']. Qed.

Lemma cell3_subscript s land w :
  imports_bound s ->
  handle L (cf_geometries LAND) (world s) = (inr land, w) ->
  ((cell3 s).1 = Raise IndexError <-> (length land < 22)%nat) /\
  globals (cell3 s).2 !! "land_geoms" = Some (VGeoms land).
Proof.
  intros (Hpd & Hnp & Hhv & Hgv & Hcartopy & Hccrs & Hcf) Hh.
  pose (P := fun s' : state L => globals s' !! "land_geoms" = Some (VGeoms land)).
  assert (wp cell3
            (fun _ s' => (22 <= length land)%nat /\ P s')
            (fun e s' => (e = IndexError <-> (length land < 22)%nat) /\ P s') s) as H.
  { unfold cell3. repeat wp_step.
    eapply wp_call_known; [exact Hh|]. cbn [world globals gens outs log].
    repeat wp_step.
    destruct (decide (length land < 22)%nat) as [Hlt|Hge].
    - apply (wp_subscript_out land 21); [lia|]. split; [done|]. unfold P. solve_lookup.
    - destruct (lookup_lt_is_Some_2 land 21) as [g Hg]; [lia|].
      apply (wp_subscript land 21 g); [done|].
      apply wp_display. intros [e|[]] w' Hd; cbn [world globals gens outs log].
      + split; [|unfold P; solve_lookup]. split; [done|lia].
      + split; [lia|]. unfold P. solve_lookup. }
  apply wp_outcome in H. destruct (cell3 s).1 as [[]|e].
  - destruct H as [Hlen HP]. split; [|done]. split; [done|lia].
  - destruct H as [[H1 H2] HP]. split; [|done].
    split; [intros [= ->]; by apply H1|]. intros Hlt. f_equal. by apply H2.
Qed.

Lemma cell7_subscript s r w l w' :
  imports_bound s ->
  globals s !! "shapefile" = Some (VStr boundaries_shp) ->
  handle L (shapereader_Reader boundaries_shp) (world s) = (inr r, w) ->
  handle L (Reader_records r) w = (inr l, w') ->
  (cell7 s).1 = Raise IndexError <-> (length l < 1)%nat.
Proof.
  intros (Hpd & Hnp & Hhv & Hgv & Hcartopy & Hccrs & Hcf) Hshp Hr Hl.
  assert (wp cell7
            (fun _ s' => (1 <= length l)%nat)
            (fun e s' => e = IndexError <-> (length l < 1)%nat) s) as H.
  { unfold cell7, cell7_bind, cell7_inspect. repeat wp_step.
    eapply wp_call_known; [exact Hr|]. cbn [world globals gens outs log].
    repeat wp_step.
    eapply wp_call_known; [exact Hl|]. cbn [world globals gens outs log].
    repeat wp_step.
    destruct (decide (length l < 1)%nat) as [Hlt|Hge].
    - by apply (wp_subscript_out l 0); [lia|].
    - destruct (lookup_lt_is_Some_2 l 0) as [x Hx]; [lia|].
      apply (wp_subscript l 0 x); [done|].
      apply wp_display. intros [e|[]] w'' Hd; cbn [world globals gens outs log].
      + split; [done|lia].
      + lia. }
  apply wp_outcome in H. destruct (cell7 s).1 as [[]|e].
  - split; [done|lia].
  - split; [intros [= ->]; by apply H|]. intros Hlt. f_equal. by apply H.
Qed.

Lemma cell4_shape s land g :
  imports_bound s ->
  globals s !! "land_geoms" = Some (VGeoms land) ->
  land !! 21%nat = Some g ->
  (cell4 s).1 <> Raise IndexError /\
  exists new, log (cell4 s).2 = log s ++ new /\
    Forall (fun ev => forall g', shaped (ev_op ev) = Some g' -> g' = g) new /\
    ((exists crs w, handle L ccrs_PlateCarree (world s) = (inr crs, w)) ->
     exists ev, ev ∈ new /\ shaped (ev_op ev) = Some g).
Proof.
  intros (Hpd & Hnp & Hhv & Hgv & Hcartopy & Hccrs & Hcf) Hl Hg.
  pose (P := fun s' : state L => exists new, log s' = log s ++ new /\
    Forall (fun ev => forall g', shaped (ev_op ev) = Some g' -> g' = g) new /\
    ((exists crs w, handle L ccrs_PlateCarree (world s) = (inr crs, w)) ->
     exists ev, ev ∈ new /\ shaped (ev_op ev) = Some g)).
  assert (wp cell4 (fun _ s' => P s') (fun e s' => e <> IndexError /\ P s') s) as H.
  { unfold cell4. repeat wp_step.
    apply (wp_subscript land 21 g); [done|]. repeat wp_step.
    apply wp_call. intros [e|crs] w Hcrs; cbn [world globals gens outs log].
    { split; [done|]. eexists. split; [done|].
      split; [solve_shaped|]. intros (crs & w' & Hh). congruence. }
    apply wp_bind, wp_call. intros r w1 Hshape.
    assert (P (State w1 (globals s) (gens s) (outs s)
                 ((log s ++ [Event ccrs_PlateCarree (inr crs)]) ++
                  [Event (gv_Shape g crs (Some "Australia")) r]))) as HP.
    { eexists. split; [by rewrite <- app_assoc|].
      split; [solve_shaped|].
      intros _. eexists. split; [apply list_elem_of_further, list_elem_of_here|done]. }
    destruct r as [e|el]; cbn [world globals gens outs log]; [done|].
    apply wp_display. intros r w2 Hd.
    assert (P (State w2 (globals s) (gens s) (outs s)
                 (((log s ++ [Event ccrs_PlateCarree (inr crs)]) ++
                   [Event (gv_Shape g crs (Some "Australia")) (inr el)]) ++
                  [Event (ipy_display (VElement el)) r]))) as HP'.
    { eexists. split; [by rewrite <- !app_assoc|].
      split; [solve_shaped|].
      intros _. eexists. split; [apply list_elem_of_further, list_elem_of_here|done]. }
    destruct r as [e|[]]; cbn [world globals gens outs log]; [done|].
    destruct HP' as (new & Hnew & ?). exists new. by rewrite <- Hnew. }
  apply wp_outcome in H. destruct (cell4 s).1 as [[]|e]; [done|].
  destruct H as [He HP]. split; [|done]. intros [= ->]. done.
Qed.
End Subscripts.

(** ** The reader after the inspection *)
Section Inspection.
Context {L : Library}.
Implicit Types (s : state L).

Lemma wp_display_known v r w (Q : unit -> state L -> Prop) E s :
  handle L (ipy_display v) (world s) = (r, w) ->
  match r with
  | inr _ => Q tt (State w (globals s) (gens s) (outs s ++ [v])
                     (log s ++ [Event (ipy_display v) r]))
  | inl e => E (LibraryError e)
               (State w (globals s) (gens s) (outs s) (log s ++ [Event (ipy_display v) r]))
  end ->
  wp (display v) Q E s.
Proof.
  intros Hh HQ. apply wp_display. intros r' w' Hh'.
  rewrite Hh in Hh'. injection Hh' as <- <-. exact HQ.
Qed.

End Inspection.

Ltac wp_any :=
  lazymatch goal with
  | |- wp (call _) _ _ _ =>
      first
        [ eapply wp_call_known; [eassumption|]
        | let e := fresh "e" in let a := fresh "a" in let w := fresh "w" in
          let Hh := fresh "Hh" in
          apply wp_call; intros [e|a] w Hh ]
  | |- wp (display _) _ _ _ =>
      first
        [ eapply wp_display_known; [eassumption|]
        | let e := fresh "e" in let w := fresh "w" in let Hh := fresh "Hh" in
          apply wp_display; intros [e|[]] w Hh ]
  end; cbn [world globals gens outs log] in *.



Section Insensitive.
Context {L : Library}.
Implicit Types (s : state L).

End Insensitive.

Section Second_call.
Context {L : Library}.
Implicit Types (s : state L).

Lemma wp_subscript_any {A} (l : list A) i (Q : A -> state L -> Prop) E s :
  (forall x, Q x s) -> E IndexError s -> wp (subscript l i) Q E s.
Proof.
  intros HQ HE. unfold wp, subscript. cbv zeta. case_decide; [|done].
  destruct (l !! _); [apply HQ|done].
Qed.


End Second_call.

(** ** The files opened and the key merged on when the evaluation returns *)
Section Opened.
Context {L : Library}.
Implicit Types (s : state L).

Lemma opened_app (made made' : list (event L)) :
  opened (made ++ made') = opened made ++ opened made'.
Proof. apply omap_app. Qed.

Lemma merge_keys_app (made made' : list (event L)) :
  merge_keys (made ++ made') = merge_keys made ++ merge_keys made'.
Proof. apply omap_app. Qed.

(** The comprehension opens no file and merges nothing. *)
Lemma comprehension_quiet (items : list (Z * Geometry L)) (d : gmap Z (Element L))
    (Q : gmap Z (Element L) -> state L -> Prop) (E : exn L -> state L -> Prop) s :
  globals s !! "gv" = Some (VModule "geoviews") ->
  globals s !! "ccrs" = Some (VModule "cartopy.crs") ->
  (forall e s', E e s') ->
  (forall d' w made, opened made = [] -> merge_keys made = [] ->
     Q d' (State w (globals s) (gens s) (outs s) (log s ++ made))) ->
  wp (dict_comprehension shape_item items d) Q E s.
Proof.
  revert d s. induction items as [|x rest IH]; intros d s Hgv Hccrs HE HQ; simpl.
  - apply wp_ret. destruct s as [w g gn os lg]. simpl in *.
    specialize (HQ d w [] eq_refl eq_refl). by rewrite app_nil_r in HQ.
  - unfold shape_item at 1.
    apply wp_bind, wp_bind. eapply wp_module; [done|].
    apply wp_bind. eapply wp_module; [done|].
    apply wp_bind, wp_call. intros [e|crs] w Hh; cbn [world globals gens outs log]; [done|].
    apply wp_bind, wp_call. intros [e|el] w' Hh'; cbn [world globals gens outs log]; [done|].
    apply wp_ret. apply IH; [done..|]. cbn [world globals gens outs log].
    intros d' w'' made Ho Hm. rewrite <- !app_assoc. apply HQ.
    + by rewrite !opened_app, Ho.
    + by rewrite !merge_keys_app, Hm.
Qed.

Lemma notebook_opens w :
  wp (run notebook)
    (fun _ s' => opened (log s') = [boundaries_shp; boundaries_shp; referendum_csv] /\
                 merge_keys (log s') = ["code"])
    (fun _ _ => True) (fresh w).
Proof.
  unfold notebook, run, cell1, cell2, cell3, cell4, cell5, cell6, cell7, cell7_bind,
    cell7_inspect, cell8, cell9, fresh.
  repeat first
    [ wp_step | wp_any
    | apply wp_subscript_any; [intros ?|]
    | apply comprehension_quiet;
      [ solve_lookup | solve_lookup | done
      | let Ho := fresh "Ho" in let Hm := fresh "Hm" in intros ? ? ? Ho Hm ] ];
    try done.
  rewrite !opened_app, !merge_keys_app, Ho, Hm. done.
Qed.
End Opened.

(** ** The sample library meets the assumptions *)
Section Sample_facts.
Implicit Types (w : World Sample.library).

Lemma sample_world_fixed {A} (o : op Sample.library A) w :
  (handle Sample.library o w).2 = w.
Proof. done. Qed.

Lemma sample_stable (I : World Sample.library -> Prop) : stable Sample.library I.
Proof. intros A o w Hw. by rewrite sample_world_fixed. Qed.

Lemma sample_fails_only_on_missing_files (I : World Sample.library -> Prop) :
  fails_only_on_missing_files Sample.library I.
Proof.
  intros A o w _ Hpresent.
  destruct o; simpl in *; eauto;
    destruct (Hpresent _ eq_refl) as [content Hcontent];
    unfold Sample.read; rewrite Hcontent; eauto.
Qed.




Lemma sample_assets_present n shp csv :
  assets_present Sample.library (eq (Sample.assets n shp csv)).
Proof. intros w <-. split; eexists; reflexivity. Qed.

Lemma sample_land_yields n shp csv :
  land_yields Sample.library (eq (Sample.assets n shp csv)) n.
Proof. intros w l <- [= <-]. simpl. by rewrite length_seq. Qed.

Lemma sample_shapefile_yields n shp csv :
  shapefile_yields Sample.library (eq (Sample.assets n shp csv)) (length shp).
Proof. intros w r w' l <- <- [= <-] [= <-]. done. Qed.
End Sample_facts.

(** * The claims *)

(** C1, amended.  When the two asset files are present, the libraries raise
    only for a missing file, [cf.LAND] yields at least 22 geometries and the
    boundaries shapefile yields at least one record, evaluating the nine
    cells in order raises no exception: no NameError, no TypeError, no
    IndexError and no exception of a library. *)
Theorem notebook_raises_no_exception (L : Library) (I : World L -> Prop) (w : World L) :
  stable L I -> fails_only_on_missing_files L I -> assets_present L I ->
  land_yields L I 22 -> shapefile_yields L I 1 -> I w ->
  (run notebook (fresh w)).1 = Ok tt.
Proof.
  intros Hstable Hfails Hassets Hland Hshp Hw.
  pose proof (notebook_returns I Hstable Hfails Hassets Hland Hshp w Hw) as H.
  apply wp_outcome in H. by destruct (run notebook (fresh w)).1 as [[]|e].
Qed.

(** In the world [complete] of the sample library, with 22 land
    geometries and two records, the notebook is evaluated to its end. *)
Lemma notebook_raises_no_exception_witness :
  stable Sample.library (eq Sample.complete) /\
  fails_only_on_missing_files Sample.library (eq Sample.complete) /\
  assets_present Sample.library (eq Sample.complete) /\
  land_yields Sample.library (eq Sample.complete) 22 /\
  shapefile_yields Sample.library (eq Sample.complete) 1 /\
  (Sample.evaluate notebook Sample.complete).1 = Ok tt.
Proof.
  assert (shapefile_yields Sample.library (eq Sample.complete) 1)
    as Hshp.
  { intros w r w' l Hw Hw' Hr Hl.
    pose proof (sample_shapefile_yields 22 [7; 8]%nat [7; 8]%nat w r w' l Hw Hw' Hr Hl) as H.
    eapply Nat.le_trans; [|exact H]. simpl. lia. }
  split; [apply sample_stable|].
  split; [apply sample_fails_only_on_missing_files|].
  split; [apply sample_assets_present|].
  split; [apply sample_land_yields|].
  split; [exact Hshp|].
  apply (notebook_raises_no_exception Sample.library (eq Sample.complete) Sample.complete);
    [ apply sample_stable | apply sample_fails_only_on_missing_files
    | apply sample_assets_present | apply sample_land_yields | exact Hshp | reflexivity ].
Defined.

(** C1, as stated, fails: both asset files are present and the library
    raises only for a missing file, yet the shapefile holds no record and
    [list(shapes.records())[0]] raises IndexError in the seventh cell. *)
Lemma present_assets_do_not_suffice :
  stable Sample.library (eq Sample.no_record) /\
  fails_only_on_missing_files Sample.library (eq Sample.no_record) /\
  assets_present Sample.library (eq Sample.no_record) /\
  (Sample.evaluate notebook Sample.no_record).1 = Raise IndexError.
Proof.
  split; [apply sample_stable|].
  split; [apply sample_fails_only_on_missing_files|].
  split; [apply sample_assets_present|].
  by vm_compute.
Qed.

(** C2.  The path literals of the notebook are the boundaries shapefile and
    the referendum CSV and no other; its one call of
    [gv.Shape.from_records] has the keyword [on='code'].  In every
    evaluation, with any libraries and in any world, every call that opens a
    file opens one of the two and every merge is made on ['code']; and an
    evaluation that returns has opened the shapefile twice (the loader and
    the reader), then the CSV, and has merged once, on ['code'], the records
    being merged in that one call. *)
Theorem two_assets_merged_on_code (L : Library) (w : World L) :
  Syntax.paths Syntax.Geometries = [boundaries_shp; referendum_csv] /\
  Syntax.keyword_of Syntax.Geometries "gv.Shape.from_records" "on" = [Syntax.Str "code"] /\
  Forall call_ok (log (run notebook (fresh w)).2) /\
  ((run notebook (fresh w)).1 = Ok tt ->
   opened (log (run notebook (fresh w)).2) =
     [boundaries_shp; boundaries_shp; referendum_csv] /\
   merge_keys (log (run notebook (fresh w)).2) = ["code"]).
Proof.
  split; [by vm_compute|]. split; [by vm_compute|]. split.
  - assert (stable L (fun _ => True)) as Hstable by done.
    by destruct (notebook_sound (fun _ => True) Hstable w I).
  - intros Hok. pose proof (notebook_opens w) as H. apply wp_outcome in H.
    by rewrite Hok in H.
Qed.

(** In the world [complete] of the sample library the evaluation returns. *)
Lemma two_assets_merged_on_code_witness :
  (Sample.evaluate notebook Sample.complete).1 = Ok tt /\
  opened (log (Sample.evaluate notebook Sample.complete).2) =
    [boundaries_shp; boundaries_shp; referendum_csv] /\
  merge_keys (log (Sample.evaluate notebook Sample.complete).2) = ["code"].
Proof.
  assert ((Sample.evaluate notebook Sample.complete).1 = Ok tt) as Hok by (by vm_compute).
  split; [exact Hok|].
  apply (proj2 (proj2 (proj2 (two_assets_merged_on_code Sample.library Sample.complete)))).
  exact Hok.
Defined.

(** C3.  The notebook defines no function, no class and no lambda, and has
    no statement that branches or loops and no expression that chooses.
    Every call starts from an imported library name or from a value a
    library call returned, except the built-ins [list] and [enumerate]; the
    one comprehension has no filter.  Each of the five operations the
    specification lists is performed by calls that occur in the notebook and
    start from an imported name. *)
Theorem every_operation_is_a_library_call :
  forallb (fun s => negb (Syntax.defines s) && negb (Syntax.control_flow s))
    (Syntax.statements Syntax.Geometries) = true /\
  forallb (fun e => negb (Syntax.is_lambda e) && negb (Syntax.chooses e))
    (Syntax.expressions Syntax.Geometries) = true /\
  forallb (fun e => Syntax.library_call Syntax.Geometries e || Syntax.builtin_call e)
    (Syntax.expressions Syntax.Geometries) = true /\
  forallb (fun o =>
      forallb (fun f =>
          bool_decide (f ∈ Syntax.callees Syntax.Geometries) &&
          bool_decide (Syntax.package f ∈ Syntax.imported Syntax.Geometries))
        (Syntax.performed_by o))
    Syntax.operations = true.
Proof. by vm_compute. Qed.





(** C7.  The notebook imports pandas, numpy, holoviews, geoviews and
    cartopy and nothing else: no module that starts threads, processes or
    event loops.  It has no coroutine, no [await], no [yield] and no
    generator expression; every call starts from one of these libraries,
    from a value they returned or from [list] and [enumerate]; its magics
    set display options.  The evaluation is one sequence: each cell runs
    after the one before it has ended. *)
Theorem no_concurrency (L : Library) :
  Syntax.modules Syntax.Geometries =
    ["pandas"; "numpy"; "holoviews"; "geoviews"; "cartopy"; "cartopy.crs";
     "cartopy.feature"] /\
  forallb (fun m => negb (bool_decide (Syntax.package m ∈ Syntax.concurrency_modules)))
    (Syntax.modules Syntax.Geometries) = true /\
  forallb (fun s => negb (Syntax.suspends_stmt s) && Syntax.magic_ok s)
    (Syntax.statements Syntax.Geometries) = true /\
  forallb (fun e => negb (Syntax.suspends e) &&
                    (Syntax.library_call Syntax.Geometries e || Syntax.builtin_call e))
    (Syntax.expressions Syntax.Geometries) = true /\
  forall s : state L,
    run notebook s =
      bind cell1 (fun _ => bind cell2 (fun _ => bind cell3 (fun _ => bind cell4 (fun _ =>
      bind cell5 (fun _ => bind cell6 (fun _ => bind cell7 (fun _ => bind cell8 (fun _ =>
      bind cell9 (fun _ => ret tt))))))))) s.
Proof.
  split; [by vm_compute|]. split; [by vm_compute|]. split; [by vm_compute|].
  split; [by vm_compute|done].
Qed.

(** C8.  From a state in which the imports and [shapefile] are bound, let
    [cf.LAND] yield the geometries [land] and the reader of the boundaries
    shapefile the records [records].  The third cell raises IndexError
    exactly when [land] has fewer than 22 geometries and the seventh exactly
    when [records] is empty: each subscript is in bounds only under its
    precondition, and under it the out-of-bounds branch is not taken.  The
    third cell binds [land_geoms] to [land]; when [land] has an element of
    index 21, the fourth cell raises no IndexError, every [gv.Shape] call it
    makes is on that element, and it makes one as soon as
    [ccrs.PlateCarree()] returns. *)
Theorem subscripts_in_bounds (L : Library) (s : state L) (land : list (Geometry L))
    (r : Reader L) (records : list (ShpRecord L)) (w1 w2 w3 : World L) :
  imports_bound s -> shapefile_bound s ->
  handle L (cf_geometries LAND) (world s) = (inr land, w1) ->
  handle L (shapereader_Reader boundaries_shp) (world s) = (inr r, w2) ->
  handle L (Reader_records r) w2 = (inr records, w3) ->
  ((cell3 s).1 = Raise IndexError <-> (length land < 22)%nat) /\
  ((cell7 s).1 = Raise IndexError <-> (length records < 1)%nat) /\
  globals (cell3 s).2 !! "land_geoms" = Some (VGeoms land) /\
  forall g s', land !! 21%nat = Some g -> imports_bound s' ->
    globals s' !! "land_geoms" = Some (VGeoms land) ->
    (cell4 s').1 <> Raise IndexError /\
    exists new, log (cell4 s').2 = log s' ++ new /\
      Forall (fun ev => forall g', shaped (ev_op ev) = Some g' -> g' = g) new /\
      ((exists crs w, handle L ccrs_PlateCarree (world s') = (inr crs, w)) ->
       exists ev, ev ∈ new /\ shaped (ev_op ev) = Some g).
Proof.
  intros Himports Hshp Hland Hreader Hrecords.
  destruct (cell3_subscript s land w1 Himports Hland) as [H3 Hbound].
  split; [done|].
  split; [by apply (cell7_subscript s r w2 records w3)|].
  split; [done|].
  intros g s' Hg Himports' Hl'. by apply (cell4_shape s' land g).
Qed.

(** In the sample library, after the imports and the binding of
    [shapefile]. *)
Lemma subscripts_in_bounds_witness :
  imports_bound Sample.imported /\ shapefile_bound Sample.imported /\
  ((cell3 Sample.imported).1 = Raise IndexError <-> (length (seq 0 22) < 22)%nat).
Proof.
  assert (imports_bound Sample.imported) as Himports.
  { unfold imports_bound. repeat split; reflexivity. }
  assert (shapefile_bound Sample.imported) as Hshp by reflexivity.
  split; [exact Himports|]. split; [exact Hshp|].
  apply (subscripts_in_bounds Sample.library Sample.imported (seq 0 22) [7; 8]%nat [7; 8]%nat
           Sample.complete Sample.complete Sample.complete Himports Hshp);
    reflexivity.
Defined.

(** C9.  For every list [land_geoms] of geometries, from a state in which
    the imports and [land_geoms] are bound and with libraries that raise only
    for a missing file, the fifth cell returns; the dict it hands to
    [hv.NdOverlay] has as many entries as [land_geoms] has geometries, its
    keys are the integers from 0 to that number less one, and its value at
    key [i] is the element that [gv.Shape] returned for the [i]-th
    geometry: none is dropped and none is replaced by another. *)
Theorem NdOverlay_holds_every_geometry (L : Library) (I : World L -> Prop) (s : state L)
    (land_geoms : list (Geometry L)) :
  stable L I -> fails_only_on_missing_files L I -> I (world s) -> imports_bound s ->
  globals s !! "land_geoms" = Some (VGeoms land_geoms) ->
  (cell5 s).1 = Ok tt /\
  exists d overlay new,
    log (cell5 s).2 = log s ++ new /\
    outs (cell5 s).2 = outs s ++ [VElement overlay] /\
    Event (hv_NdOverlay d) (inr overlay) ∈ new /\
    size d = length land_geoms /\
    dom d = list_to_set (seqZ 0 (Z.of_nat (length land_geoms))) /\
    forall i g, land_geoms !! i = Some g ->
      exists e, d !! Z.of_nat i = Some e /\ wraps new g e.
Proof.
  intros Hstable Hfails Hw Himports Hl.
  pose proof (cell5_builds I Hstable Hfails s land_geoms Hw Himports Hl) as H.
  apply wp_outcome in H. by destruct (cell5 s).1 as [[]|e].
Qed.

(** In the sample library, with the 22 land geometries bound. *)
Lemma NdOverlay_holds_every_geometry_witness :
  stable Sample.library (eq Sample.complete) /\
  fails_only_on_missing_files Sample.library (eq Sample.complete) /\
  imports_bound Sample.with_land /\
  globals Sample.with_land !! "land_geoms" =
    Some (VGeoms (seq 0 22 : list (Geometry Sample.library))) /\
  (cell5 Sample.with_land).1 = Ok tt.
Proof.
  assert (imports_bound Sample.with_land) as Himports.
  { unfold imports_bound. repeat split; reflexivity. }
  split; [apply sample_stable|].
  split; [apply sample_fails_only_on_missing_files|].
  split; [exact Himports|]. split; [reflexivity|].
  apply (NdOverlay_holds_every_geometry Sample.library (eq Sample.complete)
           Sample.with_land (seq 0 22)
           (sample_stable _) (sample_fails_only_on_missing_files _)
           eq_refl Himports eq_refl).
Defined.




(** * The model distinguishes *)

(** The syntax tree prints as the source of the code cells, up to layout
    and the choice of string delimiter. *)
Lemma tree_prints_as_source :
  map (fun body => Syntax.canon_lines (map Syntax.unparse_stmt body))
    (Syntax.code_cells Syntax.Geometries) =
  map Syntax.canon_lines Syntax.source.
Proof. by vm_compute. Qed.

(** A cell with a handler or with a thread is told apart from the cells of
    the notebook. *)
Lemma guarded_cell_handles :
  forallb (fun s => negb (Syntax.handles s)) (Syntax.statements Syntax.guarded) = false.
Proof. by vm_compute. Qed.

Lemma threaded_cell_is_concurrent :
  forallb (fun m => negb (bool_decide (Syntax.package m ∈ Syntax.concurrency_modules)))
    (Syntax.modules Syntax.threaded) = false /\
  forallb (fun s => negb (Syntax.defines s)) (Syntax.statements Syntax.threaded) = false.
Proof. by vm_compute. Qed.

(** An action that swallows the exception of a call does not propagate:
    the CSV loader raises in a world without files and the action
    returns. *)
Lemma swallow_does_not_propagate :
  ~ propagates (@swallow Sample.library
                  (bind (call (pd_read_csv referendum_csv)) (fun _ => ret tt))).
Proof.
  intros H.
  destruct (H (@fresh Sample.library (Sample.MkWorld ∅ (fun _ => []))))
    as (new & Hlog & _ & Hnormal).
  change (@nil (event Sample.library) ++
            [@Event Sample.library _ (pd_read_csv referendum_csv)
               (inl (Sample.IOError referendum_csv))] =
          [] ++ new) in Hlog.
  apply app_inv_head in Hlog. subst new. simpl in Hnormal.
  apply Forall_cons in Hnormal as [[a Ha] _]. discriminate Ha.
Qed.

(** A generator is exhausted by its first iteration: iterated again it
    yields nothing, whereas a second call of [records] yields all. *)
Lemma generator_is_one_shot :
  (@drain_twice Sample.library [7; 8]%nat (@fresh Sample.library Sample.complete)).1 =
    Ok ([7; 8]%nat, []).
Proof. by vm_compute. Qed.

(** Subscripts on a list of three: the last index, the first negative
    index, and the two indices just out of bounds. *)
Lemma subscript_on_three (s : state Sample.library) :
  (@subscript Sample.library nat [4; 5; 6]%nat 2 s).1 = Ok 6%nat /\
  (@subscript Sample.library nat [4; 5; 6]%nat (-3) s).1 = Ok 4%nat /\
  (@subscript Sample.library nat [4; 5; 6]%nat 3 s).1 = Raise IndexError /\
  (@subscript Sample.library nat [4; 5; 6]%nat (-4) s).1 = Raise IndexError.
Proof. done. Qed.

(** A comprehension whose keys collide keeps the last value only; the keys
    of [enumerate] do not collide. *)
Lemma colliding_keys_replace :
  (@dict_comprehension Sample.library nat nat (fun x => ret (0, x)) [4; 5; 6]%nat ∅
     (@fresh Sample.library Sample.complete)).1 = Ok {[ 0 := 6%nat ]} /\
  @enumerate nat [4; 5; 6]%nat = [(0, 4%nat); (1, 5%nat); (2, 6%nat)].
Proof. split; [|done]. simpl. by rewrite !insert_insert_eq. Qed.

(** * More on the evaluation *)

Ltac wp_ok :=
  lazymatch goal with
  | |- wp (call _) _ _ _ =>
      apply wp_call; intros [?|?] ? Hh; clear Hh; cbn [world globals gens outs log];
      [exact I|]
  | |- wp (display _) _ _ _ =>
      apply wp_display; intros [?|[]] ? Hh; clear Hh; cbn [world globals gens outs log];
      [exact I|]
  end.

Ltac find_event :=
  first [ by apply list_elem_of_here
        | apply elem_of_app; first [ left; by apply list_elem_of_here | right; find_event ] ].

#[local] Set Warnings "-clear-no-such-hyp".

Section Trace.
Context {L : Library}.
Implicit Types (s : state L).

Lemma wp_subscript_lookup {A} (l : list A) (i : nat) (Q : A -> state L -> Prop) E s :
  (forall x, l !! i = Some x -> Q x s) -> E IndexError s ->
  wp (subscript l (Z.of_nat i)) Q E s.
Proof.
  intros HQ HE. destruct (l !! i) as [x|] eqn:Hx.
  - apply (wp_subscript l i x); [done|]. by apply HQ.
  - apply wp_subscript_out; [|done]. by apply lookup_ge_None.
Qed.

Lemma enumerate_items {A} (l : list A) : (enumerate l).*2 = l.
Proof.
  unfold enumerate. rewrite fmap_imap. simpl.
  induction l as [|x l IH]; [done|]. rewrite imap_cons. f_equal.
  rewrite <- IH at 2. by apply imap_ext.
Qed.

Lemma shapes_of_app (a b : list (event L)) : shapes_of (a ++ b) = shapes_of a ++ shapes_of b.
Proof. apply omap_app. Qed.

Lemma lands_of_app (a b : list (event L)) : lands_of (a ++ b) = lands_of a ++ lands_of b.
Proof. apply omap_app. Qed.

Lemma readers_of_app (a b : list (event L)) :
  readers_of (a ++ b) = readers_of a ++ readers_of b.
Proof. apply omap_app. Qed.

Lemma reads_of_app (a b : list (event L)) : reads_of (a ++ b) = reads_of a ++ reads_of b.
Proof. apply omap_app. Qed.

Lemma merges_of_app (a b : list (event L)) : merges_of (a ++ b) = merges_of a ++ merges_of b.
Proof. apply omap_app. Qed.

Lemma crs_count_app (a b : list (event L)) :
  crs_count (a ++ b) = (crs_count a + crs_count b)%nat.
Proof. unfold crs_count. by rewrite omap_app, length_app. Qed.

Lemma comprehension_trace (items : list (Z * Geometry L)) (d : gmap Z (Element L))
    (Q : gmap Z (Element L) -> state L -> Prop) (E : exn L -> state L -> Prop) s :
  globals s !! "gv" = Some (VModule "geoviews") ->
  globals s !! "ccrs" = Some (VModule "cartopy.crs") ->
  (forall e s', E e s') ->
  (forall d' w made,
     shapes_of made = items.*2 -> crs_count made = length items ->
     lands_of made = [] -> readers_of made = [] -> reads_of made = [] ->
     merges_of made = [] ->
     Q d' (State w (globals s) (gens s) (outs s) (log s ++ made))) ->
  wp (dict_comprehension shape_item items d) Q E s.
Proof.
  revert d s. induction items as [|x rest IH]; intros d s Hgv Hccrs HE HQ; simpl.
  - apply wp_ret. destruct s as [w g gn os lg]. simpl in *.
    specialize (HQ d w [] eq_refl eq_refl eq_refl eq_refl eq_refl eq_refl).
    by rewrite app_nil_r in HQ.
  - unfold shape_item at 1.
    apply wp_bind, wp_bind. eapply wp_module; [done|].
    apply wp_bind. eapply wp_module; [done|].
    apply wp_bind, wp_call. intros [e|crs] w Hh; cbn [world globals gens outs log]; [done|].
    apply wp_bind, wp_call. intros [e|el] w' Hh'; cbn [world globals gens outs log]; [done|].
    apply wp_ret. apply IH; [done..|]. cbn [world globals gens outs log].
    intros d' w'' made H1 H2 H3 H4 H5 H6. rewrite <- !app_assoc. apply HQ.
    + rewrite !shapes_of_app, H1. reflexivity.
    + rewrite !crs_count_app, H2. reflexivity.
    + rewrite !lands_of_app, H3. reflexivity.
    + rewrite !readers_of_app, H4. reflexivity.
    + rewrite !reads_of_app, H5. reflexivity.
    + rewrite !merges_of_app, H6. reflexivity.
Qed.

Lemma notebook_trace s :
  wp (run notebook) (fun _ s' => full_trace s s') (fun _ _ => True) s.
Proof.
  unfold notebook, run, cell1, cell2, cell3, cell4, cell5, cell6, cell7, cell7_bind,
    cell7_inspect, cell8, cell9.
  repeat first [ wp_step | wp_ok ].
  apply (wp_subscript_lookup _ 21); [intros g Hg|exact I].
  repeat first [ wp_step | wp_ok ].
  apply (wp_subscript_lookup _ 21); [intros g' Hg'|exact I].
  rewrite Hg in Hg'. injection Hg' as <-.
  repeat first [ wp_step | wp_ok ].
  apply comprehension_trace; [solve_lookup|solve_lookup|done|].
  intros d' w' made Hm1 Hm2 Hm3 Hm4 Hm5 Hm6.
  repeat first [ wp_step | wp_ok ].
  apply (wp_subscript_lookup _ 0); [intros x Hx|exact I].
  repeat first [ wp_step | wp_ok ].
  unfold full_trace. cbn [world globals gens outs log]. rewrite <- !app_assoc.
  eexists _, _.
  split; [reflexivity|]. split; [reflexivity|]. split; [reflexivity|].
  split; [rewrite !dom_insert_L; unfold assigned_names; set_solver|].
  split; [reflexivity|].
  split.
  { eexists _, _, _, _, _, _, _. repeat (split; [find_event|]). reflexivity. }
  split.
  { exists l, g. split; [rewrite !lands_of_app, Hm3; reflexivity|].
    split; [exact Hg|]. split; [reflexivity|].
    split.
    - rewrite !shapes_of_app, Hm1, enumerate_items. simpl. by rewrite app_nil_r.
    - rewrite !crs_count_app, Hm2. unfold enumerate. rewrite length_imap.
      unfold crs_count. simpl. lia. }
  split.
  { eexists _, _, _, x.
    split; [rewrite !readers_of_app, Hm4; reflexivity|].
    split; [rewrite !reads_of_app, Hm5; reflexivity|].
    split; [rewrite !merges_of_app, Hm6; reflexivity|].
    split; [exact Hx|reflexivity]. }
  eexists _, _, _, _, _, _, _. repeat (split; [first [find_event | reflexivity]|]).
  reflexivity.
Qed.

(** An evaluation that returned has the trace of the nine cells. *)
Lemma returning_trace s : (run notebook s).1 = Ok tt -> full_trace s (run notebook s).2.
Proof.
  intros Hret. pose proof (wp_outcome _ _ _ _ (notebook_trace s)) as H.
  by rewrite Hret in H.
Qed.
End Trace.

(** ** Evaluation from any state of the kernel *)
Section Anywhere.
Context {L : Library}.
Implicit Types (s : state L).

Lemma wp_get_unbound x (Q : pyval L -> state L -> Prop) E s :
  globals s !! x = None -> E (NameError x) s -> wp (get x) Q E s.
Proof. unfold wp, get. by intros ->. Qed.



Lemma cell6_binds_shapefile s :
  globals (cell6 s).2 = <["shapefile" := VStr boundaries_shp]> (globals s).
Proof.
  pose (P := fun s' : state L =>
               globals s' = <["shapefile" := VStr boundaries_shp]> (globals s)).
  assert (wp cell6 (fun _ => P) (fun _ => P) s) as H.
  { unfold cell6. apply wp_bind, wp_set, wp_bind, wp_bind.
    cbn [world globals gens outs log].
    destruct (globals s !! "gv") as [v|] eqn:Hgv.
    2: { apply wp_get_unbound; [cbn; by rewrite lookup_insert_ne|done]. }
    eapply wp_get; [cbn; by rewrite lookup_insert_ne|].
    destruct v as [m| | | | | | | | |]; try done.
    destruct (decide (m = "geoviews")); [|done].
    apply wp_ret, wp_bind. eapply wp_get_str; [solve_lookup|].
    apply wp_bind, wp_bind.
    destruct (globals s !! "ccrs") as [v|] eqn:Hccrs.
    2: { apply wp_get_unbound; [cbn; by rewrite lookup_insert_ne|done]. }
    eapply wp_get; [cbn; by rewrite lookup_insert_ne|].
    destruct v as [m'| | | | | | | | |]; try done.
    destruct (decide (m' = "cartopy.crs")); [|done].
    apply wp_ret, wp_bind, wp_call. intros [x|crs] w _; [done|].
    apply wp_bind, wp_call. intros [x|el] w' _; [done|].
    apply wp_display. by intros [x|[]] w'' _. }
  apply wp_outcome in H. by destruct (cell6 s).1.
Qed.
End Anywhere.

(** ** Two evaluations side by side *)
Section Tied_rules.
Context {L : Library}.
Implicit Types (s : state L).






End Tied_rules.





Section Tied_cells.
Context {L : Library}.
Implicit Types (s : state L).










End Tied_cells.

(** * More on the notebook *)

(** In the sample world [complete] the nine cells return. *)
Lemma sample_run_returns : (Sample.evaluate notebook Sample.complete).1 = Ok tt.
Proof. by vm_compute. Qed.



(** The layout that the second cell displays is
    [(land + borders) + (land * borders).relabel("Overlay")], built from
    the features of [cf.LAND] and [cf.BORDERS]; the feature of
    [cf.COASTLINE] is constructed as well. *)
Theorem second_cell_lays_out_land_and_borders (L : Library) (s : state L) :
  (run notebook s).1 = Ok tt ->
  exists new shown,
    log (run notebook s).2 = log s ++ new /\ outs (run notebook s).2 = outs s ++ shown /\
    layout_flow new shown.
Proof.
  intros Hret.
  destruct (returning_trace s Hret) as (new & shown & Hlog & Houts & _ & _ & _ & H & _).
  by exists new, shown.
Qed.

Lemma second_cell_lays_out_land_and_borders_witness :
  (Sample.evaluate notebook Sample.complete).1 = Ok tt /\
  exists new shown,
    log (Sample.evaluate notebook Sample.complete).2 =
      log (@fresh Sample.library Sample.complete) ++ new /\
    outs (Sample.evaluate notebook Sample.complete).2 =
      outs (@fresh Sample.library Sample.complete) ++ shown /\
    layout_flow new shown.
Proof.
  split; [exact sample_run_returns|].
  apply (second_cell_lays_out_land_and_borders Sample.library (@fresh Sample.library Sample.complete)).
  exact sample_run_returns.
Defined.

(** [cf.LAND.geometries()] is called once.  The geometry that the third
    cell displays is item 21 of the list it yielded; [gv.Shape] is given
    this same geometry by the fourth cell and then every geometry of the
    list, in order, by the fifth; and [ccrs.PlateCarree()] is called anew
    for each of these shapes, and once by the sixth and the ninth cell. *)
Theorem one_land_list_feeds_three_cells (L : Library) (s : state L) :
  (run notebook s).1 = Ok tt ->
  exists new shown land g,
    log (run notebook s).2 = log s ++ new /\ outs (run notebook s).2 = outs s ++ shown /\
    lands_of new = [land] /\ land !! 21%nat = Some g /\
    shown !! 1%nat = Some (VGeometry g) /\
    shapes_of new = g :: land /\
    crs_count new = (length land + 3)%nat.
Proof.
  intros Hret.
  destruct (returning_trace s Hret)
    as (new & shown & Hlog & Houts & _ & _ & _ & _ & (land & g & H) & _).
  by exists new, shown, land, g.
Qed.

Lemma one_land_list_feeds_three_cells_witness :
  (Sample.evaluate notebook Sample.complete).1 = Ok tt /\
  exists new shown land g,
    log (Sample.evaluate notebook Sample.complete).2 =
      log (@fresh Sample.library Sample.complete) ++ new /\
    outs (Sample.evaluate notebook Sample.complete).2 =
      outs (@fresh Sample.library Sample.complete) ++ shown /\
    lands_of new = [land] /\ land !! 21%nat = Some g /\
    shown !! 1%nat = Some (VGeometry g) /\
    shapes_of new = g :: land /\
    crs_count new = (length land + 3)%nat.
Proof.
  split; [exact sample_run_returns|].
  apply (one_land_list_feeds_three_cells Sample.library (@fresh Sample.library Sample.complete)).
  exact sample_run_returns.
Defined.

(** One reader is made, and it is read twice: by the generator of the
    seventh cell, whose first record is the one displayed, and by the
    generator of the ninth, whose records are the ones merged.  Both
    generators are exhausted at the end, and no other was created. *)
Theorem reader_is_read_twice (L : Library) (s : state L) :
  (run notebook s).1 = Ok tt ->
  exists new shown r recs1 recs2 x,
    log (run notebook s).2 = log s ++ new /\ outs (run notebook s).2 = outs s ++ shown /\
    gens (run notebook s).2 = gens s ++ [None; None] /\
    readers_of new = [r] /\ reads_of new = [(r, recs1); (r, recs2)] /\
    merges_of new = [recs2] /\
    recs1 !! 0%nat = Some x /\ shown !! 5%nat = Some (VRecord x).
Proof.
  intros Hret.
  destruct (returning_trace s Hret)
    as (new & shown & Hlog & Houts & Hgens & _ & _ & _ & _ & (r & recs1 & recs2 & x & H) & _).
  by exists new, shown, r, recs1, recs2, x.
Qed.

Lemma reader_is_read_twice_witness :
  (Sample.evaluate notebook Sample.complete).1 = Ok tt /\
  exists new shown r recs1 recs2 x,
    log (Sample.evaluate notebook Sample.complete).2 =
      log (@fresh Sample.library Sample.complete) ++ new /\
    outs (Sample.evaluate notebook Sample.complete).2 =
      outs (@fresh Sample.library Sample.complete) ++ shown /\
    gens (Sample.evaluate notebook Sample.complete).2 =
      gens (@fresh Sample.library Sample.complete) ++ [None; None] /\
    readers_of new = [r] /\ reads_of new = [(r, recs1); (r, recs2)] /\
    merges_of new = [recs2] /\
    recs1 !! 0%nat = Some x /\ shown !! 5%nat = Some (VRecord x).
Proof.
  split; [exact sample_run_returns|].
  apply (reader_is_read_twice Sample.library (@fresh Sample.library Sample.complete)).
  exact sample_run_returns.
Defined.

(** The table read from the referendum file is wrapped by [hv.Dataset];
    the eighth cell displays the head of the [data] of that dataset, and
    the merge of the ninth cell is given that dataset, the key ['code'],
    the value ['leaveVoteshare'] and the index [['name', 'regionName']];
    what the merge returns is the last value displayed. *)
Theorem referendum_table_reaches_the_merge (L : Library) (s : state L) :
  (run notebook s).1 = Ok tt ->
  exists new shown,
    log (run notebook s).2 = log s ++ new /\ outs (run notebook s).2 = outs s ++ shown /\
    referendum_flow new shown.
Proof.
  intros Hret.
  destruct (returning_trace s Hret) as (new & shown & Hlog & Houts & _ & _ & _ & _ & _ & _ & H).
  by exists new, shown.
Qed.

Lemma referendum_table_reaches_the_merge_witness :
  (Sample.evaluate notebook Sample.complete).1 = Ok tt /\
  exists new shown,
    log (Sample.evaluate notebook Sample.complete).2 =
      log (@fresh Sample.library Sample.complete) ++ new /\
    outs (Sample.evaluate notebook Sample.complete).2 =
      outs (@fresh Sample.library Sample.complete) ++ shown /\
    referendum_flow new shown.
Proof.
  split; [exact sample_run_returns|].
  apply (referendum_table_reaches_the_merge Sample.library (@fresh Sample.library Sample.complete)).
  exact sample_run_returns.
Defined.










(** The sixth cell leaves [shapefile] bound to the path of the boundaries
    file whether its call returns or raises, so the seventh cell
    evaluated after it raises neither NameError nor TypeError: it needs
    the first statement of the sixth cell, not its second. *)
Theorem seventh_cell_after_a_failed_sixth (L : Library) (s : state L) :
  globals s !! "cartopy" = Some (VModule "cartopy") ->
  shapefile_bound (cell6 s).2 /\
  forall x, (cell7 (cell6 s).2).1 <> Raise (NameError x) /\
            (cell7 (cell6 s).2).1 <> Raise (TypeError x).
Proof.
  intros Hcartopy. pose proof (cell6_binds_shapefile s) as Hg.
  assert (shapefile_bound (cell6 s).2) as Hshp.
  { unfold shapefile_bound. rewrite Hg. by rewrite lookup_insert_eq. }
  split; [done|].
  assert (globals (cell6 s).2 !! "cartopy" = Some (VModule "cartopy")) as Hc.
  { rewrite Hg. by rewrite lookup_insert_ne. }
  pose (E := fun (e : exn L) (_ : state L) =>
    match e with NameError _ | TypeError _ => False | _ => True end).
  assert (wp cell7 (fun _ _ => True) E (cell6 s).2) as H.
  { unfold shapefile_bound in Hshp. unfold cell7, cell7_bind, cell7_inspect.
    repeat first [ wp_step | wp_ok ].
    apply (wp_subscript_lookup _ 0); [intros x Hx|exact I].
    repeat first [ wp_step | wp_ok ]. exact I. }
  apply wp_outcome in H. intros x.
  destruct (cell7 (cell6 s).2).1 as [a|[y|y| |y]]; done.
Qed.

(** In a sample world without any file the sixth cell raises, and the
    seventh finds [shapefile] all the same. *)
Lemma seventh_cell_after_a_failed_sixth_witness :
  globals (Sample.evaluate [cell1] (Sample.MkWorld ∅ (fun _ => []))).2 !! "cartopy" =
    Some (VModule "cartopy") /\
  shapefile_bound (cell6 (Sample.evaluate [cell1] (Sample.MkWorld ∅ (fun _ => []))).2).2 /\
  forall x,
    (cell7 (cell6 (Sample.evaluate [cell1] (Sample.MkWorld ∅ (fun _ => []))).2).2).1 <>
      Raise (NameError x) /\
    (cell7 (cell6 (Sample.evaluate [cell1] (Sample.MkWorld ∅ (fun _ => []))).2).2).1 <>
      Raise (TypeError x).
Proof.
  split; [reflexivity|].
  apply (seventh_cell_after_a_failed_sixth Sample.library
           (Sample.evaluate [cell1] (Sample.MkWorld ∅ (fun _ => []))).2).
  reflexivity.
Defined.


(** The scopes of the notebook, read off its syntax tree.  Evaluated in
    order, no cell reads a name before it is bound (the built-ins [list]
    and [enumerate] apart); on its own, every cell but the first needs a
    name of an earlier cell; the names bound are the fourteen of
    [assigned_names]; and two of them, [np] and [coasts], are never
    read. *)
Theorem names_are_bound_before_use :
  Names.unbound Syntax.builtins (concat (Syntax.code_cells Syntax.Geometries)) = [] /\
  map Names.first_needed (Syntax.code_cells Syntax.Geometries) =
    [None; Some "gv"; Some "cf"; Some "gv"; Some "hv"; Some "gv"; Some "cartopy";
     Some "pd"; Some "gv"] /\
  Names.bound_names Syntax.Geometries = assigned_names /\
  Names.unused Syntax.Geometries = ["np"; "coasts"].
Proof. by vm_compute. Qed.
